(** * Photo upload session and profile image binding

    A shallow embedding of two React components of the chat client:

    - [PhotoSharingInput] (the photo sharing dialog): the handlers
      [handleFileSelect], [handleSendPhoto], [handleCancel], the inline
      "change photo" handlers and the parts of the render function that
      decide which controls exist and which are disabled;
    - [ProfilePage.handleImageChange] (the profile picture picker).

    Component state is a record with one field per [useState] cell.  A handler
    is a computation over that record which also emits the calls it makes to
    its collaborators (upload helper, parent callbacks, console, alert,
    document store) as a list of effects.  An [async] handler is cut at its
    [await]s: what the awaited promise does is supplied by the environment. *)

From Stdlib Require Import QArith.
From stdpp Require Import base option list strings gmap.

Local Open Scope string_scope.

(** ** JavaScript values shared by both components *)

Module JS.

(** Truthiness of a string: only the empty string is falsy. *)
Definition truthy (s : string) : bool := negb (String.eqb s "").

(** [o || d] for [o : string | undefined]. *)
Definition or_else (o : option string) (d : string) : string :=
  match o with
  | Some s => if truthy s then s else d
  | None => d
  end.

(** The part of a DOM [File] the components look at. *)
Record File := mkFile { name : string; size : N; type : string }.

(** What an upload helper resolves with. *)
Record UploadResult := mkResult { url : string; path : string }.

(** A thrown value ([error: any]); storage errors carry a code and a
    message. *)
Record Thrown := mkThrown { code : string; message : string }.

(** How an awaited promise settles. *)
Inductive Settled (A : Type) :=
| Fulfilled (a : A)
| Rejected (e : Thrown).
Arguments Fulfilled {A} a.
Arguments Rejected {A} e.

End JS.

(** ** The photo sharing dialog *)

Module PhotoSharingInput.
Import JS.

(** [{ isValid: boolean; error?: string }], the result of
    [validateImageFile]. *)
Record Validation := mkValidation { isValid : bool; verror : option string }.

(** One field per [useState] call of the component. *)
Record State := mkState {
  selectedFile : option File;
  previewUrl : string;
  isUploading : bool;
  uploadProgress : Q;
  error : string
}.

(** State on mount. *)
Definition initial : State :=
  {| selectedFile := None; previewUrl := ""; isUploading := false;
     uploadProgress := 0%Q; error := "" |}.

(** Calls that leave the component.  The parent's callbacks
    [onPhotoSelected] and [onCancel] are taken to return normally. *)
Inductive Effect :=
| UploadChatPhoto (file : File) (chatId userId : string)
| ReadAsDataURL (file : File)
| ConsoleError (msg : string) (err : Thrown)
| OnPhotoSelected (photoUrl filePath : string)
| OnCancel.

(** A synchronous stretch of handler code: it returns a value, the next
    state and the calls it made, in order. *)
Definition M (A : Type) : Type := State -> A * State * list Effect.

#[global] Instance M_ret : MRet M := fun A a s => (a, s, []).
#[global] Instance M_bind : MBind M := fun A B f m s =>
  let '(a, s1, e1) := m s in
  let '(b, s2, e2) := f a s1 in
  (b, s2, (e1 ++ e2)%list).

Definition emit (e : Effect) : M unit := fun s => (tt, s, [e]).
Definition read : M State := fun s => (s, s, []).
Definition modify (f : State -> State) : M unit := fun s => (tt, f s, []).

Definition setSelectedFile (v : option File) : M unit :=
  modify (fun s => {| selectedFile := v; previewUrl := previewUrl s;
    isUploading := isUploading s; uploadProgress := uploadProgress s;
    error := error s |}).
Definition setPreviewUrl (v : string) : M unit :=
  modify (fun s => {| selectedFile := selectedFile s; previewUrl := v;
    isUploading := isUploading s; uploadProgress := uploadProgress s;
    error := error s |}).
Definition setIsUploading (v : bool) : M unit :=
  modify (fun s => {| selectedFile := selectedFile s;
    previewUrl := previewUrl s; isUploading := v;
    uploadProgress := uploadProgress s; error := error s |}).
Definition setUploadProgress (v : Q) : M unit :=
  modify (fun s => {| selectedFile := selectedFile s;
    previewUrl := previewUrl s; isUploading := isUploading s;
    uploadProgress := v; error := error s |}).
Definition setError (v : string) : M unit :=
  modify (fun s => {| selectedFile := selectedFile s;
    previewUrl := previewUrl s; isUploading := isUploading s;
    uploadProgress := uploadProgress s; error := v |}).

(** State and effects of a computation, dropping its value. *)
Definition exec {A} (m : M A) (s : State) : State * list Effect :=
  let '(_, s', es) := m s in (s', es).

Section Handlers.

(** Helpers imported from [../lib/storageUtils] and the component's
    props. *)
Variable validateImageFile : File -> Validation.
Variable getStorageErrorMessage : Thrown -> string.
Variables chatId userId : string.

(** [handleFileSelect]; [file] is [event.target.files?.[0]]. *)
Definition handleFileSelect (file : option File) : M unit :=
  setError "";;
  match file with
  | None => mret tt
  | Some file =>
      let validation := validateImageFile file in
      if negb (isValid validation) then
        setError (or_else (verror validation) "Invalid file")
      else
        setSelectedFile (Some file);;
        emit (ReadAsDataURL file)
  end.

(** [reader.onload]; [result] is [e.target?.result]. *)
Definition reader_onload (result : option string) : M unit :=
  match result with
  | Some r => if truthy r then setPreviewUrl r else mret tt
  | None => mret tt
  end.

(** [handleSendPhoto] up to its [await]: the guard, the three setters and
    the call of [uploadChatPhoto]. *)
Definition handleSendPhoto : M unit :=
  s ← read;
  match selectedFile s with
  | None => mret tt
  | Some file =>
      setIsUploading true;;
      setError "";;
      setUploadProgress 0%Q;;
      emit (UploadChatPhoto file chatId userId)
  end.

(** The progress callback handed to [uploadChatPhoto]. *)
Definition onProgress (progress : Q) : M unit := setUploadProgress progress.

(** [handleSendPhoto] from its [await] on: the rest of the [try] block
    when the upload resolves, the [catch] block when it rejects, and the
    [finally] block after either. *)
Definition handleSendPhoto_settled (o : Settled UploadResult) : M unit :=
  match o with
  | Fulfilled result =>
      emit (OnPhotoSelected (url result) (path result));;
      setSelectedFile None;;
      setPreviewUrl "";;
      setUploadProgress 0%Q
  | Rejected err =>
      emit (ConsoleError "Error uploading photo:" err);;
      let errorMessage := getStorageErrorMessage err in
      setError errorMessage
  end;;
  setIsUploading false.

(** [handleCancel]. *)
Definition handleCancel : M unit :=
  setSelectedFile None;;
  setPreviewUrl "";;
  setError "";;
  setUploadProgress 0%Q;;
  emit OnCancel.

(** The inline handler of the preview's remove button and of
    "Change Photo". *)
Definition discardFile : M unit :=
  setSelectedFile None;;
  setPreviewUrl "".

(** *** What the render function offers

    The JSX branches on [!selectedFile]: the picker (hidden file input,
    error box) or the preview (image, remove button, "Change Photo" and
    "Send Photo", the last two with [disabled={isUploading}]). *)

Inductive Control := Absent | Disabled | Enabled.

Definition fileInput (s : State) : Control :=
  match selectedFile s with None => Enabled | Some _ => Absent end.

Definition removeButton (s : State) : Control :=
  match selectedFile s with None => Absent | Some _ => Enabled end.

Definition changePhotoButton (s : State) : Control :=
  match selectedFile s with
  | None => Absent
  | Some _ => if isUploading s then Disabled else Enabled
  end.

Definition sendPhotoButton (s : State) : Control :=
  match selectedFile s with
  | None => Absent
  | Some _ => if isUploading s then Disabled else Enabled
  end.

(** The error box: [{error && ...}] inside the picker branch. *)
Definition errorBox (s : State) : option string :=
  match selectedFile s with
  | None => if truthy (error s) then Some (error s) else None
  | Some _ => None
  end.

(** The [src] of the preview image. *)
Definition previewImage (s : State) : option string :=
  match selectedFile s with None => None | Some _ => Some (previewUrl s) end.

(** *** The dialog with its pending asynchronous work *)

Inductive Event :=
| PickFile (file : option File)
| ReaderLoaded (result : option string)
| ClickSendPhoto
| ClickChangePhoto
| ClickRemove
| ClickClose
| Progress (p : Q)
| UploadSettled (o : Settled UploadResult).

(** [uploads] and [reads] count the [uploadChatPhoto] promises and the
    [FileReader]s that have been started and have not completed yet;
    [log] collects the effects. *)
Record World := mkWorld {
  ui : State;
  uploads : nat;
  reads : nat;
  log : list Effect
}.

Definition mounted : World :=
  {| ui := initial; uploads := 0; reads := 0; log := [] |}.

(** The upload flag is up exactly while one upload is pending. *)
Definition one_upload (w : World) : Prop :=
  uploads w = if isUploading (ui w) then 1 else 0.

Definition started (es : list Effect) : nat * nat :=
  foldr (fun e '(u, r) =>
           match e with
           | UploadChatPhoto _ _ _ => (S u, r)
           | ReadAsDataURL _ => (u, S r)
           | _ => (u, r)
           end) (0, 0) es.

(** Run handler code in a world. *)
Definition perform (m : M unit) (w : World) : World :=
  let '(s', es) := exec m (ui w) in
  let '(u, r) := started es in
  {| ui := s'; uploads := uploads w + u; reads := reads w + r;
     log := (log w ++ es)%list |}.

Definition click (c : Control) (m : M unit) (w : World) : option World :=
  match c with
  | Absent => None
  | Disabled => Some w
  | Enabled => Some (perform m w)
  end.

(** One event.  [None]: the event cannot occur in this world (the control
    is not rendered, or nothing is pending).  A click on a disabled
    button occurs and changes nothing. *)
Definition step (w : World) (ev : Event) : option World :=
  match ev with
  | PickFile file => click (fileInput (ui w)) (handleFileSelect file) w
  | ClickSendPhoto => click (sendPhotoButton (ui w)) handleSendPhoto w
  | ClickChangePhoto => click (changePhotoButton (ui w)) discardFile w
  | ClickRemove => click (removeButton (ui w)) discardFile w
  | ClickClose => Some (perform handleCancel w)
  | ReaderLoaded result =>
      match reads w with
      | O => None
      | S n =>
          let w' := perform (reader_onload result) w in
          Some {| ui := ui w'; uploads := uploads w'; reads := n;
                  log := log w' |}
      end
  | Progress p =>
      match uploads w with
      | O => None
      | S _ => Some (perform (onProgress p) w)
      end
  | UploadSettled o =>
      match uploads w with
      | O => None
      | S n =>
          let w' := perform (handleSendPhoto_settled o) w in
          Some {| ui := ui w'; uploads := n; reads := reads w';
                  log := log w' |}
      end
  end.

Fixpoint run (w : World) (evs : list Event) : option World :=
  match evs with
  | [] => Some w
  | ev :: evs' =>
      match step w ev with
      | Some w' => run w' evs'
      | None => None
      end
  end.

End Handlers.

(** *** The session status of the specification

    The component has no status field.  The observable states of the
    specification are read off the state record: [Failed] is "[lastError]
    populated", [Idle] is "no file chosen", [Uploading] is a chosen file
    with the upload flag set, [Ready] a chosen file waiting for
    confirmation.  [Validating], [Succeeded] and [Cancelled] are passed
    through inside one handler run and are never the state between two
    events. *)

Inductive Status :=
| Idle | Validating | Ready | Uploading | Succeeded | Failed | Cancelled.

Definition status_of (s : State) : Status :=
  if truthy (error s) then Failed
  else match selectedFile s with
       | None => Idle
       | Some _ => if isUploading s then Uploading else Ready
       end.

End PhotoSharingInput.

(** ** The profile page *)

Module ProfilePage.
Import JS.

(** [auth.currentUser], as far as the page uses it. *)
Record User := mkUser { uid : string }.

(** Field values the page writes to the document store. *)
Inductive Value :=
| VString (s : string)
| VDate (ms : Z).

#[global] Instance Value_eq_dec : EqDecision Value.
Proof. solve_decision. Defined.

(** A document: field name to value.  A collection: document id to
    document. *)
Abbreviation Doc := (gmap string Value).
Abbreviation Collection := (gmap string Doc).

(** The [useState] cells [handleImageChange] touches. *)
Record State := mkState {
  profileImage : option string;
  uploadingImage : bool;
  uploadProgress : Q
}.

(** The page and the [users] collection behind [db]. *)
Record World := mkWorld { ui : State; users : Collection }.

Inductive Effect :=
| UploadProfileImage (file : File) (userId : string)
| UpdateDoc (collection id : string) (data : list (string * Value))
| ConsoleLog (msg : string)
| ConsoleError (msg : string) (err : Thrown)
| Alert (msg : string).

(** What the collaborators do during one run of the handler: the progress
    reports of the upload and how it settles, whether the document write
    is refused for a reason of its own, and the clock read by
    [new Date()]. *)
Record Env := mkEnv {
  upload_progress : list Q;
  upload_settles : Settled UploadResult;
  write_refused : option Thrown;
  clock : Z
}.

(** Handler code that may throw: the result is a value or the thrown
    error, with the world and the effects so far. *)
Definition M (A : Type) : Type := World -> (Thrown + A) * World * list Effect.

#[global] Instance M_ret : MRet M := fun A a w => (inr a, w, []).
#[global] Instance M_bind : MBind M := fun A B f m w =>
  match m w with
  | (inl e, w1, e1) => (inl e, w1, e1)
  | (inr a, w1, e1) =>
      let '(r, w2, e2) := f a w1 in (r, w2, (e1 ++ e2)%list)
  end.

Definition throw {A} (e : Thrown) : M A := fun w => (inl e, w, []).
Definition emit (e : Effect) : M unit := fun w => (inr tt, w, [e]).
Definition modify (f : State -> State) : M unit := fun w =>
  (inr tt, {| ui := f (ui w); users := users w |}, []).

(** [try { body } catch (error) { handler error } finally { final }]. *)
Definition try_catch_finally (body : M unit) (handler : Thrown -> M unit)
    (final : M unit) : M unit := fun w =>
  let '(r, w1, e1) := body w in
  let '(r', w2, e2) :=
    match r with
    | inl err => handler err w1
    | inr _ => (inr tt, w1, [])
    end in
  let '(rf, w3, e3) := final w2 in
  (match rf with inl e => inl e | inr _ => r' end, w3,
   (e1 ++ e2 ++ e3)%list).

Definition setProfileImage (v : option string) : M unit :=
  modify (fun s => {| profileImage := v; uploadingImage := uploadingImage s;
    uploadProgress := uploadProgress s |}).
Definition setUploadingImage (v : bool) : M unit :=
  modify (fun s => {| profileImage := profileImage s; uploadingImage := v;
    uploadProgress := uploadProgress s |}).
Definition setUploadProgress (v : Q) : M unit :=
  modify (fun s => {| profileImage := profileImage s;
    uploadingImage := uploadingImage s; uploadProgress := v |}).

(** Firestore's error for [updateDoc] on a document that does not exist. *)
Definition not_found : Thrown :=
  {| code := "not-found"; message := "No document to update" |}.

(** The object literal [handleImageChange] passes to [updateDoc]. *)
Definition imageFields (result : UploadResult) (now : Z)
    : list (string * Value) :=
  [("profileImage", VString (url result));
   ("profileImagePath", VString (path result));
   ("updatedAt", VDate now)].

(** The document writes among the effects. *)
Definition writes (es : list Effect)
    : list (string * string * list (string * Value)) :=
  omap (fun e => match e with
                 | UpdateDoc c i data => Some (c, i, data)
                 | _ => None
                 end) es.

Section Handler.

Variable env : Env.

(** The error [updateDoc] rejects with on document [id], if it does. *)
Definition updateDoc_error (docs : Collection) (id : string) : option Thrown :=
  match write_refused env with
  | Some e => Some e
  | None => match docs !! id with
            | None => Some not_found
            | Some _ => None
            end
  end.

(** [await uploadProfileImage(file, userId, onProgress)]: the call, the
    progress callbacks, then the promise's outcome. *)
Definition await_uploadProfileImage (file : File) (userId : string)
    (onProgress : Q -> M unit) : M UploadResult :=
  emit (UploadProfileImage file userId);;
  foldr (fun p k => onProgress p;; k) (mret tt) (upload_progress env);;
  match upload_settles env with
  | Fulfilled result => mret result
  | Rejected e => throw e
  end.

(** [await updateDoc(doc(db, "users", id), data)]: merges [data] into the
    existing document; rejects, changing nothing, when the store refuses
    the write or the document does not exist. *)
Definition await_updateDoc (id : string) (data : list (string * Value))
    : M unit :=
  emit (UpdateDoc "users" id data);;
  match write_refused env with
  | Some e => throw e
  | None => fun w =>
      match users w !! id with
      | None => throw not_found w
      | Some d =>
          (inr tt,
           {| ui := ui w;
              users := <[id := list_to_map data ∪ d]> (users w) |}, [])
      end
  end.

(** [handleImageChange]; [file] is [e.target.files?.[0]] and [user] is
    [auth.currentUser]. *)
Definition handleImageChange (file : option File) (user : option User)
    : M unit :=
  match file, user with
  | Some file, Some user =>
      setUploadingImage true;;
      setUploadProgress 0%Q;;
      try_catch_finally
        (result ← await_uploadProfileImage file (uid user)
                    (fun progress => setUploadProgress progress);
         setProfileImage (Some (url result));;
         await_updateDoc (uid user)
           [("profileImage", VString (url result));
            ("profileImagePath", VString (path result));
            ("updatedAt", VDate (clock env))];;
         emit (ConsoleLog "Profile image uploaded successfully!"))
        (fun error =>
           emit (ConsoleError "Error uploading profile image:" error);;
           emit (Alert "Failed to upload image. Please try again."))
        (setUploadingImage false;;
         setUploadProgress 0%Q)
  | _, _ => mret tt
  end.

End Handler.

End ProfilePage.

(** ** Stand-ins for [lib/storageUtils] *)

Module StorageUtils.
Import JS PhotoSharingInput.

Section Validator.

Variable accepted : list string.
Variable maxSize : N.
Variables typeMessage sizeMessage : string.

(** Modelled from the spec: [validateImageFile] lives in [lib/storageUtils],
    which is not among the sources.  The specification's validator rejects a
    blob whose MIME type is not in the accepted image type set, rejects a
    blob whose byte size exceeds the configured maximum, and says which of
    the two rules failed. *)
Definition validateImageFile (file : File) : Validation :=
  if negb (bool_decide (type file ∈ accepted)) then
    {| isValid := false; verror := Some typeMessage |}
  else if (maxSize <? size file)%N then
    {| isValid := false; verror := Some sizeMessage |}
  else
    {| isValid := true; verror := None |}.

End Validator.

(** Modelled from the spec: the user-facing categories of the error
    classifier [getStorageErrorMessage], also in [lib/storageUtils]. *)
Inductive Category := Network | Quota | Permission | Unknown.

Section Classifier.

Variable categorise : Thrown -> Category.
Variable userMessage : Category -> string.

(** Modelled from the spec: the classifier is a pure mapping from the raw
    error to the message of its category. *)
Definition getStorageErrorMessage (e : Thrown) : string :=
  userMessage (categorise e).

End Classifier.

(** A configuration to run the scenarios of the specification with: four
    image types, a ceiling of 10 MB, and one message per rule and category. *)
Definition imageTypes : list string :=
  ["image/jpeg"; "image/png"; "image/gif"; "image/webp"].

Definition tenMB : N := 10 * 1024 * 1024.

Definition validate : File -> Validation :=
  validateImageFile imageTypes tenMB
    "Please select a JPEG, PNG, GIF or WebP image."
    "The image is larger than 10 MB.".

Definition categoriseByCode (e : Thrown) : Category :=
  if String.eqb (code e) "storage/retry-limit-exceeded" then Network
  else if String.eqb (code e) "storage/quota-exceeded" then Quota
  else if String.eqb (code e) "storage/unauthorized" then Permission
  else Unknown.

Definition messageOf (c : Category) : string :=
  match c with
  | Network => "Network error. Please check your connection and try again."
  | Quota => "Storage quota exceeded."
  | Permission => "You do not have permission to upload this file."
  | Unknown => "Upload failed. Please try again."
  end.

Definition classify : Thrown -> string :=
  getStorageErrorMessage categoriseByCode messageOf.

(** The blobs and errors of the specification's scenarios. *)
Definition jpeg2MB : File :=
  {| name := "photo.jpg"; size := 2 * 1024 * 1024; type := "image/jpeg" |}.

Definition png15MB : File :=
  {| name := "scan.png"; size := 15 * 1024 * 1024; type := "image/png" |}.

Definition png1MB : File :=
  {| name := "icon.png"; size := 1024 * 1024; type := "image/png" |}.

Definition pdf1MB : File :=
  {| name := "notes.pdf"; size := 1024 * 1024; type := "application/pdf" |}.

Definition networkError : Thrown :=
  {| code := "storage/retry-limit-exceeded";
     message := "Firebase Storage: Max retry time for operation exceeded." |}.

Definition photoResult : UploadResult :=
  {| url := "https://storage.example/photo.jpg";
     path := "chats/default/photo.jpg" |}.

(** The dialog after the 2 MB JPEG was picked and sent, its upload in
    flight. *)
Definition uploadingJpeg : World :=
  {| ui := {| selectedFile := Some jpeg2MB; previewUrl := "";
              isUploading := true; uploadProgress := 0%Q; error := "" |};
     uploads := 1; reads := 1;
     log := [ReadAsDataURL jpeg2MB;
             UploadChatPhoto jpeg2MB "default" "anonymous"] |}.

End StorageUtils.

(** ** A profile to run the profile page on *)

Module ProfileFixtures.
Import JS ProfilePage.

Definition alice : User := {| uid := "alice" |}.

Definition oldImage : string := "https://cdn.example/old.webp".

Definition aliceDoc : Doc :=
  {[ "name" := VString "Love"; "profileImage" := VString oldImage ]}.

Definition page : World :=
  {| ui := {| profileImage := Some oldImage; uploadingImage := false;
              uploadProgress := 0%Q |};
     users := {[ "alice" := aliceDoc ]} |}.

Definition avatar : File :=
  {| name := "me.jpg"; size := 2 * 1024 * 1024; type := "image/jpeg" |}.

Definition avatarResult : UploadResult :=
  {| url := "https://storage.example/profiles/alice/me.jpg";
     path := "profiles/alice/me.jpg" |}.

Definition permissionDenied : Thrown :=
  {| code := "permission-denied";
     message := "Missing or insufficient permissions." |}.

(** The upload reports three times and succeeds; the write goes through. *)
Definition allGood : Env :=
  {| upload_progress := [0%Q; 40%Q; 100%Q];
     upload_settles := Fulfilled avatarResult;
     write_refused := None;
     clock := 1700000000000 |}.

(** The upload succeeds and the store refuses the write. *)
Definition writeRefused : Env :=
  {| upload_progress := [0%Q; 40%Q; 100%Q];
     upload_settles := Fulfilled avatarResult;
     write_refused := Some permissionDenied;
     clock := 1700000000000 |}.

(** The upload itself fails. *)
Definition storageDown : Thrown :=
  {| code := "storage/retry-limit-exceeded";
     message := "Firebase Storage: Max retry time for operation exceeded." |}.

Definition uploadFails : Env :=
  {| upload_progress := [0%Q; 40%Q];
     upload_settles := Rejected storageDown;
     write_refused := None;
     clock := 1700000000000 |}.

(** The page of a user who has no profile document. *)
Definition pageWithoutDoc : World :=
  {| ui := {| profileImage := Some oldImage; uploadingImage := false;
              uploadProgress := 0%Q |};
     users := ∅ |}.

(** A second picture, uploaded a minute later. *)
Definition avatar2 : File :=
  {| name := "me2.png"; size := 1024 * 1024; type := "image/png" |}.

Definition avatarResult2 : UploadResult :=
  {| url := "https://storage.example/profiles/alice/me2.png";
     path := "profiles/alice/me2.png" |}.

Definition allGoodLater : Env :=
  {| upload_progress := [100%Q];
     upload_settles := Fulfilled avatarResult2;
     write_refused := None;
     clock := 1700000060000 |}.

End ProfileFixtures.

(** ** Reading the dialog's effect log *)

Module PhotoSharingLog.
Import JS PhotoSharingInput.

Definition is_upload (e : Effect) : bool :=
  match e with UploadChatPhoto _ _ _ => true | _ => false end.

Definition is_notification (e : Effect) : bool :=
  match e with OnPhotoSelected _ _ => true | _ => false end.

Definition is_failure_report (e : Effect) : bool :=
  match e with ConsoleError _ _ => true | _ => false end.

Definition count (p : Effect -> bool) (es : list Effect) : nat :=
  length (List.filter p es).

Section Invariants.

Variable validateImageFile : File -> Validation.
Variables chatId userId : string.

(** Only files the validator accepted are selected or handed to
    [uploadChatPhoto], and always with the component's own ids. *)
Definition uploads_accepted (w : World) : Prop :=
  (forall f, selectedFile (ui w) = Some f ->
     isValid (validateImageFile f) = true)
  /\ (forall f c u, UploadChatPhoto f c u ∈ log w ->
        isValid (validateImageFile f) = true /\ c = chatId /\ u = userId).

(** Every upload that was started has been answered by the parent's
    callback, reported as failed, or is still pending. *)
Definition uploads_balanced (w : World) : Prop :=
  count is_upload (log w) =
  count is_notification (log w) + count is_failure_report (log w)
  + uploads w.

End Invariants.

End PhotoSharingLog.

(** ** The rest of the profile page

    The page's other [useState] cells, the snapshot listener registered in
    the first [useEffect], the two "likes" handlers and the choice between
    the page's three screens. *)

Module ProfileScreen.

Module Like.

(** An entry of [likesData]. *)
Record t := mk {
  id : string;
  name : string;
  age : Z;
  location : string;
  avatar : string;
  timeAgo : string;
  isRevealed : bool
}.

(** [{ ...like, isRevealed: true }]. *)
Definition reveal (like : t) : t :=
  {| id := id like; name := name like; age := age like;
     location := location like; avatar := avatar like;
     timeAgo := timeAgo like; isRevealed := true |}.

End Like.

(** The fields of [docSnap.data()] the listener reads, at the types of the
    state cells they are stored in; [None] is a field that is not there.
    Numbers are the integers the page shows. *)
Record ProfileData := mkData {
  d_username : option string;
  d_name : option string;
  d_age : option Z;
  d_location : option string;
  d_profession : option string;
  d_bio : option string;
  d_interests : option (list string);
  d_profileImage : option string;
  d_profileViews : option Z
}.

(** The [useState] cells of the page that [handleImageChange] leaves
    alone. *)
Record Page := mkPage {
  name : string;
  age : Z;
  location : string;
  profession : string;
  bio : string;
  interests : list string;
  profileViews : Z;
  loading : bool;
  showLikesModal : bool;
  likesData : list Like.t
}.

(** The whole page: these cells, and the cells and document store
    [handleImageChange] works on. *)
Record Screen := mkScreen { page : Page; world : ProfilePage.World }.

Definition defaultInterests : list string :=
  ["Often"; "Sociale drinker"; "Never"; "Pisces"].

Definition defaultBio : string :=
  "Life is an adventure, let's explore it together! ✨".

Definition defaultImage : string :=
  "https://cdn.builder.io/api/v1/image/assets%2Fe142673ab78f4d70a642f0b5825a4793%2F9ca3a7221ed04dfaaa8b4de10c2f495e?format=webp&width=800".

Definition initialLikes : list Like.t :=
  [ {| Like.id := "1"; Like.name := "Sarah"; Like.age := 24;
       Like.location := "Mumbai, India";
       Like.avatar := "https://images.pexels.com/photos/415829/pexels-photo-415829.jpeg?auto=compress&cs=tinysrgb&w=150&h=150&fit=crop";
       Like.timeAgo := "2 hours ago"; Like.isRevealed := false |};
    {| Like.id := "2"; Like.name := "Priya"; Like.age := 22;
       Like.location := "Delhi, India";
       Like.avatar := "https://images.pexels.com/photos/774909/pexels-photo-774909.jpeg?auto=compress&cs=tinysrgb&w=150&h=150&fit=crop";
       Like.timeAgo := "1 day ago"; Like.isRevealed := false |};
    {| Like.id := "3"; Like.name := "Anjali"; Like.age := 26;
       Like.location := "Bangalore, India";
       Like.avatar := "https://images.pexels.com/photos/733872/pexels-photo-733872.jpeg?auto=compress&cs=tinysrgb&w=150&h=150&fit=crop";
       Like.timeAgo := "3 days ago"; Like.isRevealed := false |} ].

(** The page on mount, over the documents [docs]. *)
Definition mounted (docs : ProfilePage.Collection) : Screen :=
  {| page := {| name := "Love"; age := 25; location := "Beverly Hills, CA";
                profession := "Model & Influencer"; bio := defaultBio;
                interests := defaultInterests; profileViews := 247;
                loading := true; showLikesModal := false;
                likesData := initialLikes |};
     world := {| ProfilePage.ui :=
                   {| ProfilePage.profileImage := Some defaultImage;
                      ProfilePage.uploadingImage := false;
                      ProfilePage.uploadProgress := 0%Q |};
                 ProfilePage.users := docs |} |}.

(** [n || d] for [n : number | undefined]: 0 is falsy. *)
Definition number_or (o : option Z) (d : Z) : Z :=
  match o with
  | Some n => if (n =? 0)%Z then d else n
  | None => d
  end.

(** [a || d] for [a : string[] | undefined]: every array is truthy. *)
Definition array_or (o : option (list string)) (d : list string)
    : list string :=
  match o with Some a => a | None => d end.

(** Handler code over the whole page. *)
Definition M (A : Type) : Type := Screen -> A * Screen.

#[global] Instance M_ret : MRet M := fun A a s => (a, s).
#[global] Instance M_bind : MBind M := fun A B f m s =>
  let '(a, s1) := m s in f a s1.

Definition modifyPage (f : Page -> Page) : M unit := fun s =>
  (tt, {| page := f (page s); world := world s |}).

Definition setName (v : string) : M unit :=
  modifyPage (fun p => {| name := v; age := age p; location := location p;
    profession := profession p; bio := bio p; interests := interests p;
    profileViews := profileViews p; loading := loading p;
    showLikesModal := showLikesModal p; likesData := likesData p |}).
Definition setAge (v : Z) : M unit :=
  modifyPage (fun p => {| name := name p; age := v; location := location p;
    profession := profession p; bio := bio p; interests := interests p;
    profileViews := profileViews p; loading := loading p;
    showLikesModal := showLikesModal p; likesData := likesData p |}).
Definition setLocation (v : string) : M unit :=
  modifyPage (fun p => {| name := name p; age := age p; location := v;
    profession := profession p; bio := bio p; interests := interests p;
    profileViews := profileViews p; loading := loading p;
    showLikesModal := showLikesModal p; likesData := likesData p |}).
Definition setProfession (v : string) : M unit :=
  modifyPage (fun p => {| name := name p; age := age p;
    location := location p; profession := v; bio := bio p;
    interests := interests p; profileViews := profileViews p;
    loading := loading p; showLikesModal := showLikesModal p;
    likesData := likesData p |}).
Definition setBio (v : string) : M unit :=
  modifyPage (fun p => {| name := name p; age := age p;
    location := location p; profession := profession p; bio := v;
    interests := interests p; profileViews := profileViews p;
    loading := loading p; showLikesModal := showLikesModal p;
    likesData := likesData p |}).
Definition setInterests (v : list string) : M unit :=
  modifyPage (fun p => {| name := name p; age := age p;
    location := location p; profession := profession p; bio := bio p;
    interests := v; profileViews := profileViews p; loading := loading p;
    showLikesModal := showLikesModal p; likesData := likesData p |}).
Definition setProfileViews (v : Z) : M unit :=
  modifyPage (fun p => {| name := name p; age := age p;
    location := location p; profession := profession p; bio := bio p;
    interests := interests p; profileViews := v; loading := loading p;
    showLikesModal := showLikesModal p; likesData := likesData p |}).
Definition setLoading (v : bool) : M unit :=
  modifyPage (fun p => {| name := name p; age := age p;
    location := location p; profession := profession p; bio := bio p;
    interests := interests p; profileViews := profileViews p; loading := v;
    showLikesModal := showLikesModal p; likesData := likesData p |}).
Definition setShowLikesModal (v : bool) : M unit :=
  modifyPage (fun p => {| name := name p; age := age p;
    location := location p; profession := profession p; bio := bio p;
    interests := interests p; profileViews := profileViews p;
    loading := loading p; showLikesModal := v; likesData := likesData p |}).

(** [setLikesData(prev => f(prev))]. *)
Definition setLikesData (f : list Like.t -> list Like.t) : M unit :=
  modifyPage (fun p => {| name := name p; age := age p;
    location := location p; profession := profession p; bio := bio p;
    interests := interests p; profileViews := profileViews p;
    loading := loading p; showLikesModal := showLikesModal p;
    likesData := f (likesData p) |}).

(** [setProfileImage], on the cell shared with [handleImageChange]. *)
Definition setProfileImage (v : option string) : M unit := fun s =>
  (tt, {| page := page s;
          world := (ProfilePage.setProfileImage v (world s)).1.2 |}).

(** The callback handed to [onSnapshot]; [docSnap] is [None] when
    [docSnap.exists()] is false, [randomFloor] is what
    [Math.floor(Math.random() * 300)] evaluates to. *)
Definition onSnapshot_callback (randomFloor : Z)
    (docSnap : option ProfileData) : M unit :=
  match docSnap with
  | Some data =>
      setName (JS.or_else (d_username data)
                 (JS.or_else (d_name data) "Love"));;
      setAge (number_or (d_age data) 25);;
      setLocation (JS.or_else (d_location data) "Beverly Hills, CA");;
      setProfession (JS.or_else (d_profession data) "Model & Influencer");;
      setBio (JS.or_else (d_bio data) defaultBio);;
      setInterests (array_or (d_interests data) defaultInterests);;
      match d_profileImage data with
      | Some image =>
          if JS.truthy image then setProfileImage (Some image) else mret tt
      | None => mret tt
      end;;
      setProfileViews (number_or (d_profileViews data) (randomFloor + 100))
  | None => mret tt
  end;;
  setLoading false.

(** [handleRevealLike]. *)
Definition handleRevealLike (likeId : string) : M unit :=
  setLikesData (fun prev =>
    map (fun like =>
           if String.eqb (Like.id like) likeId then Like.reveal like
           else like) prev).

Section Likes.

(** [isPremium] of the premium context. *)
Variable isPremium : bool.

(** [handleShowLikes]. *)
Definition handleShowLikes : M unit :=
  (if isPremium then
     setLikesData (fun prev => map (fun like => Like.reveal like) prev)
   else mret tt);;
  setShowLikesModal true.

(** The likes card: [isPremium ? likesData.length : '?']. *)
Definition likesCount (s : Screen) : option nat :=
  if isPremium then Some (length (likesData (page s))) else None.

End Likes.

(** [onClose] of the likes modal. *)
Definition closeLikes : M unit := setShowLikesModal false.

(** *** Which screen is rendered

    The function returns the login prompt when there is no user, the
    spinner while [loading], and the page otherwise. *)

Inductive View := LoginPrompt | LoadingSpinner | ProfileView.

Definition render (user : option ProfilePage.User) (s : Screen) : View :=
  match user with
  | None => LoginPrompt
  | Some _ => if loading (page s) then LoadingSpinner else ProfileView
  end.

(** The camera button: [disabled={uploadingImage}]; the hidden file input
    it opens is part of the profile view. *)
Definition cameraButton (user : option ProfilePage.User) (s : Screen)
    : PhotoSharingInput.Control :=
  match render user s with
  | ProfileView =>
      if ProfilePage.uploadingImage (ProfilePage.ui (world s))
      then PhotoSharingInput.Disabled else PhotoSharingInput.Enabled
  | _ => PhotoSharingInput.Absent
  end.

(** The image shown: [profileImage ? <img src> : initial of the name]. *)
Definition shownImage (s : Screen) : option string :=
  match ProfilePage.profileImage (ProfilePage.ui (world s)) with
  | Some image => if JS.truthy image then Some image else None
  | None => None
  end.

(** *** Events on the page *)

Inductive Event :=
| Snapshot (randomFloor : Z) (docSnap : option ProfileData)
| RevealLike (likeId : string)
| ShowLikes
| CloseLikes
| ImageChange (env : ProfilePage.Env) (file : option JS.File).

Section Run.

Variable isPremium : bool.
Variable user : option ProfilePage.User.

(** [handleImageChange] on the whole page; its effects are not kept. *)
Definition imageChange (env : ProfilePage.Env) (file : option JS.File)
    : M unit := fun s =>
  (tt, {| page := page s;
          world := (ProfilePage.handleImageChange env file user
                      (world s)).1.2 |}).

Definition step (s : Screen) (ev : Event) : Screen :=
  (match ev with
   | Snapshot randomFloor docSnap => onSnapshot_callback randomFloor docSnap
   | RevealLike likeId => handleRevealLike likeId
   | ShowLikes => handleShowLikes isPremium
   | CloseLikes => closeLikes
   | ImageChange env file => imageChange env file
   end s).2.

Definition run (s : Screen) (evs : list Event) : Screen :=
  foldl step s evs.

End Run.

(** The image stored in the profile document of [id], if it is a
    string. *)
Definition storedImage (docs : ProfilePage.Collection) (id : string)
    : option string :=
  match docs !! id with
  | Some d =>
      match d !! "profileImage" with
      | Some (ProfilePage.VString image) => Some image
      | _ => None
      end
  | None => None
  end.

(** The number of revealed likes. *)
Definition revealed (likes : list Like.t) : nat :=
  length (List.filter Like.isRevealed likes).

(** A string field that [||] skips: absent or empty.  A number field that
    [||] skips: absent or zero. *)
Definition missing (o : option string) : Prop := o = None \/ o = Some "".
Definition missing_number (o : option Z) : Prop :=
  o = None \/ o = Some 0%Z.

Definition is_snapshot (ev : Event) : bool :=
  match ev with Snapshot _ _ => true | _ => false end.

(** The ids passed to [handleRevealLike] by a list of events, and whether
    the list opens the likes. *)
Definition reveal_ids (evs : list Event) : list string :=
  omap (fun ev => match ev with RevealLike i => Some i | _ => None end) evs.

Definition shows_likes (evs : list Event) : bool :=
  existsb (fun ev => match ev with ShowLikes => true | _ => false end) evs.

(** Whether a list of events reveals a like. *)
Definition revealed_by (isPremium : bool) (evs : list Event) (like : Like.t)
    : bool :=
  (isPremium && shows_likes evs)
  || existsb (String.eqb (Like.id like)) (reveal_ids evs).

Definition reveal_if (b : bool) (like : Like.t) : Like.t :=
  if b then Like.reveal like else like.

End ProfileScreen.

(** ** Snapshots to run the profile page on *)

Module ScreenFixtures.
Import ProfileScreen ProfileFixtures.

(** The page of alice on mount, over her stored document. *)
Definition aliceScreen : Screen := mounted (ProfilePage.users page).

(** A snapshot of a document that has none of the fields. *)
Definition blankData : ProfileData :=
  {| d_username := None; d_name := None; d_age := None; d_location := None;
     d_profession := None; d_bio := None; d_interests := None;
     d_profileImage := None; d_profileViews := None |}.

(** A snapshot of alice's stored document. *)
Definition aliceData : ProfileData :=
  {| d_username := None; d_name := Some "Love"; d_age := None;
     d_location := None; d_profession := None; d_bio := None;
     d_interests := None; d_profileImage := Some oldImage;
     d_profileViews := None |}.

(** A snapshot of her document after the new picture was saved. *)
Definition aliceDataSaved : ProfileData :=
  {| d_username := None; d_name := Some "Love"; d_age := None;
     d_location := None; d_profession := None; d_bio := None;
     d_interests := None;
     d_profileImage := Some (JS.url avatarResult);
     d_profileViews := None |}.

End ScreenFixtures.

(** ** The format label of the preview

    The preview pane shows [selectedFile.type.split("/")[1].toUpperCase()].
    A [File]'s [type] is an ASCII string in lower case. *)

Module PreviewPane.
Import Stdlib.Strings.Ascii.
Import JS.

Definition slash : Ascii.ascii := "/"%char.

(** [s.split("/")]. *)
Fixpoint split_slash (s : string) : list string :=
  match s with
  | EmptyString => [EmptyString]
  | String c rest =>
      if Ascii.eqb c slash then EmptyString :: split_slash rest
      else match split_slash rest with
           | first :: others => String c first :: others
           | [] => [String c EmptyString]
           end
  end.

(** [toUpperCase] on ASCII: the letters a to z move to A to Z. *)
Definition upper (c : Ascii.ascii) : Ascii.ascii :=
  let n := Ascii.nat_of_ascii c in
  if (97 <=? n)%nat && (n <=? 122)%nat then Ascii.ascii_of_nat (n - 32) else c.

Fixpoint toUpperCase (s : string) : string :=
  match s with
  | EmptyString => EmptyString
  | String c rest => String (upper c) (toUpperCase rest)
  end.

(** The label; [None] when [split("/")[1]] is [undefined] and the call of
    [toUpperCase] on it throws. *)
Definition formatLabel (file : File) : option string :=
  toUpperCase <$> (split_slash (type file) !! 1%nat).

(** Whether a string contains a slash. *)
Fixpoint has_slash (s : string) : bool :=
  match s with
  | EmptyString => false
  | String c rest => Ascii.eqb c slash || has_slash rest
  end.

End PreviewPane.

(** * Properties of the photo sharing dialog *)

Module PhotoSharingSpec.
Import JS PhotoSharingInput.

Lemma truthy_nonempty s : truthy s = true <-> s <> "".
Proof.
  unfold truthy. destruct (String.eqb_spec s ""); simpl; split; congruence.
Qed.

Lemma or_else_nonempty o d : d <> "" -> or_else o d <> "".
Proof.
  intros Hd. unfold or_else. destruct o as [s|]; [|done].
  destruct (truthy s) eqn:E; [|done]. by apply truthy_nonempty.
Qed.

Lemma or_else_given s d : s <> "" -> or_else (Some s) d = s.
Proof.
  intros Hs. unfold or_else. apply truthy_nonempty in Hs. by rewrite Hs.
Qed.

(** Unfolds the handler monad down to records and lists. *)
Ltac run_handler :=
  unfold exec, handleFileSelect, reader_onload, handleSendPhoto,
    handleSendPhoto_settled, handleCancel, discardFile, onProgress,
    setSelectedFile, setPreviewUrl, setIsUploading, setUploadProgress,
    setError, modify, emit, read, mbind, mret, M_bind, M_ret;
  cbn [fst snd app selectedFile previewUrl isUploading uploadProgress error].

Section Select.

Variable validateImageFile : File -> Validation.

(** A rejected file only replaces the error message. *)
Lemma handleFileSelect_rejected file s :
  isValid (validateImageFile file) = false ->
  exec (handleFileSelect validateImageFile (Some file)) s =
  ({| selectedFile := selectedFile s; previewUrl := previewUrl s;
      isUploading := isUploading s; uploadProgress := uploadProgress s;
      error := or_else (verror (validateImageFile file)) "Invalid file" |},
   []).
Proof. intros Hv. run_handler. by rewrite Hv. Qed.

(** An accepted file is stored, the old error is cleared and the reader is
    started; the preview is not written. *)
Lemma handleFileSelect_accepted file s :
  isValid (validateImageFile file) = true ->
  exec (handleFileSelect validateImageFile (Some file)) s =
  ({| selectedFile := Some file; previewUrl := previewUrl s;
      isUploading := isUploading s; uploadProgress := uploadProgress s;
      error := "" |},
   [ReadAsDataURL file]).
Proof. intros Hv. run_handler. by rewrite Hv. Qed.

End Select.

Lemma status_Failed s : error s <> "" -> status_of s = Failed.
Proof.
  intros He. unfold status_of. apply truthy_nonempty in He. by rewrite He.
Qed.

(** C1.  A file that [validateImageFile] rejects leaves [handleFileSelect]
    with the validator's message in [error] (["Invalid file"] when the
    validator gives none), so the message is not empty and the session is
    [Failed]; [selectedFile], [previewUrl] and the other fields keep their
    values and no call is made: no upload, no file read. *)
Theorem handleFileSelect_validation_failure
    (validateImageFile : File -> Validation) (file : File) (s : State) :
  isValid (validateImageFile file) = false ->
  exists s',
    exec (handleFileSelect validateImageFile (Some file)) s = (s', [])
    /\ error s' = or_else (verror (validateImageFile file)) "Invalid file"
    /\ error s' <> ""
    /\ status_of s' = Failed
    /\ selectedFile s' = selectedFile s
    /\ previewUrl s' = previewUrl s
    /\ isUploading s' = isUploading s
    /\ uploadProgress s' = uploadProgress s.
Proof.
  intros Hv. eexists. split; [by apply handleFileSelect_rejected|].
  cbn [error selectedFile previewUrl isUploading uploadProgress].
  assert (Hne : or_else (verror (validateImageFile file)) "Invalid file" <> "")
    by (by apply or_else_nonempty).
  repeat split; [exact Hne|]. by apply status_Failed.
Qed.

(** C1, at the 15 MB PNG of the specification's scenario. *)
Lemma handleFileSelect_validation_failure_witness :
  isValid (StorageUtils.validate StorageUtils.png15MB) = false
  /\ exists s',
       exec (handleFileSelect StorageUtils.validate
               (Some StorageUtils.png15MB)) initial = (s', [])
       /\ error s' = or_else (verror (StorageUtils.validate
                                        StorageUtils.png15MB)) "Invalid file"
       /\ error s' <> ""
       /\ status_of s' = Failed
       /\ selectedFile s' = selectedFile initial
       /\ previewUrl s' = previewUrl initial
       /\ isUploading s' = isUploading initial
       /\ uploadProgress s' = uploadProgress initial.
Proof.
  split; [reflexivity|].
  apply (handleFileSelect_validation_failure StorageUtils.validate
           StorageUtils.png15MB initial).
  reflexivity.
Defined.

(** With the validator of the specification the stored message is the one of
    the rule that failed: the type rule first, then the size rule. *)
Section Rules.

Variable accepted : list string.
Variable maxSize : N.
Variables typeMessage sizeMessage : string.

Let validator :=
  StorageUtils.validateImageFile accepted maxSize typeMessage sizeMessage.

Lemma handleFileSelect_type_rule file s :
  type file ∉ accepted -> typeMessage <> "" ->
  error (exec (handleFileSelect validator (Some file)) s).1 = typeMessage.
Proof.
  intros Hty Hmsg.
  assert (Hv : validator file = {| isValid := false;
                                   verror := Some typeMessage |}).
  { unfold validator, StorageUtils.validateImageFile.
    by rewrite bool_decide_eq_false_2. }
  rewrite handleFileSelect_rejected by (by rewrite Hv).
  rewrite Hv. cbn [fst error verror]. by apply or_else_given.
Qed.

Lemma handleFileSelect_size_rule file s :
  type file ∈ accepted -> (maxSize < size file)%N -> sizeMessage <> "" ->
  error (exec (handleFileSelect validator (Some file)) s).1 = sizeMessage.
Proof.
  intros Hty Hsz Hmsg.
  assert (Hv : validator file = {| isValid := false;
                                   verror := Some sizeMessage |}).
  { unfold validator, StorageUtils.validateImageFile.
    rewrite bool_decide_eq_true_2 by done. cbn [negb].
    apply N.ltb_lt in Hsz. by rewrite Hsz. }
  rewrite handleFileSelect_rejected by (by rewrite Hv).
  rewrite Hv. cbn [fst error verror]. by apply or_else_given.
Qed.

End Rules.

(** *** Cancelling *)

Lemma handleCancel_exec s :
  exec handleCancel s =
  ({| selectedFile := None; previewUrl := ""; isUploading := isUploading s;
      uploadProgress := 0%Q; error := "" |}, [OnCancel]).
Proof. by run_handler. Qed.


(** *** An upload that fails *)

(** C6.  When the upload rejects with [err], the [catch] block logs [err]
    to the console and stores [getStorageErrorMessage err] in [error]: the
    next state is built from the old state and the classifier's output
    alone, the upload flag is lowered, and nothing else is called. *)
Theorem upload_failure_stores_classified_message
    (getStorageErrorMessage : Thrown -> string) (err : Thrown) (s : State) :
  exec (handleSendPhoto_settled getStorageErrorMessage (Rejected err)) s =
  ({| selectedFile := selectedFile s; previewUrl := previewUrl s;
      isUploading := false; uploadProgress := uploadProgress s;
      error := getStorageErrorMessage err |},
   [ConsoleError "Error uploading photo:" err]).
Proof. by run_handler. Qed.

(** The specification's scenario: a transport failure is shown as the
    network message, which is not the raw message. *)
Example network_failure_message s :
  let s' := (exec (handleSendPhoto_settled StorageUtils.classify
                     (Rejected StorageUtils.networkError)) s).1 in
  error s' = StorageUtils.messageOf StorageUtils.Network
  /\ error s' <> message StorageUtils.networkError.
Proof. split; [reflexivity|discriminate]. Qed.

(** *** Confirming *)

Section Dialog.

Variable validateImageFile : File -> Validation.
Variable getStorageErrorMessage : Thrown -> string.
Variables chatId userId : string.

Abbreviation step := (step validateImageFile getStorageErrorMessage chatId userId).
Abbreviation run := (run validateImageFile getStorageErrorMessage chatId userId).

(** The only guard of [handleSendPhoto] is on [selectedFile]. *)
Lemma handleSendPhoto_no_file s :
  selectedFile s = None -> exec (handleSendPhoto chatId userId) s = (s, []).
Proof. intros Hs. run_handler. by rewrite Hs. Qed.

Lemma handleSendPhoto_file s file :
  selectedFile s = Some file ->
  exec (handleSendPhoto chatId userId) s =
  ({| selectedFile := Some file; previewUrl := previewUrl s;
      isUploading := true; uploadProgress := 0%Q; error := "" |},
   [UploadChatPhoto file chatId userId]).
Proof. intros Hs. run_handler. rewrite Hs. cbn. by rewrite ?Hs. Qed.

(** While the upload flag is up, a click on "Send Photo" changes nothing. *)
Lemma ClickSendPhoto_while_uploading w w' :
  isUploading (ui w) = true -> step w ClickSendPhoto = Some w' -> w' = w.
Proof.
  intros Hup. cbn [PhotoSharingInput.step]. unfold sendPhotoButton.
  destruct (selectedFile (ui w)); rewrite ?Hup; cbn [click]; congruence.
Qed.

Lemma one_upload_mounted : one_upload mounted.
Proof. reflexivity. Qed.

Lemma one_upload_step w ev w' :
  one_upload w -> step w ev = Some w' -> one_upload w'.
Proof.
  unfold one_upload. intros Inv Hstep. destruct w as [s u r l].
  cbn [ui uploads] in Inv.
  destruct ev as [file|result| | | | |p|o]; cbn [PhotoSharingInput.step] in Hstep.
  - unfold fileInput in Hstep. cbn [ui] in Hstep.
    destruct (selectedFile s) eqn:Hsel; [done|]. cbn [click] in Hstep.
    injection Hstep as <-. unfold perform. cbn [ui uploads].
    destruct file as [file|].
    + destruct (isValid (validateImageFile file)) eqn:Hv.
      * rewrite handleFileSelect_accepted by done. cbn. lia.
      * rewrite handleFileSelect_rejected by done. cbn. lia.
    + run_handler. cbn. lia.
  - cbn [reads] in Hstep. destruct r as [|r]; [done|].
    injection Hstep as <-. unfold perform. cbn [ui uploads].
    destruct result as [res|]; run_handler; [destruct (truthy res)|]; cbn; lia.
  - unfold sendPhotoButton in Hstep. cbn [ui] in Hstep.
    destruct (selectedFile s) as [file|] eqn:Hsel; [|done].
    destruct (isUploading s) eqn:Hup; cbn [click] in Hstep;
      injection Hstep as <-.
    + cbn [ui uploads]. by rewrite Hup.
    + unfold perform. cbn [ui uploads].
      rewrite (handleSendPhoto_file _ file) by done. cbn. lia.
  - unfold changePhotoButton in Hstep. cbn [ui] in Hstep.
    destruct (selectedFile s); [|done].
    destruct (isUploading s) eqn:Hup; cbn [click] in Hstep;
      injection Hstep as <-.
    + cbn [ui uploads]. by rewrite Hup.
    + unfold perform. run_handler. cbn. rewrite Hup. lia.
  - unfold removeButton in Hstep. cbn [ui] in Hstep.
    destruct (selectedFile s); [|done]. cbn [click] in Hstep.
    injection Hstep as <-. unfold perform. run_handler. cbn. lia.
  - injection Hstep as <-. unfold perform. rewrite handleCancel_exec.
    cbn. lia.
  - cbn [uploads] in Hstep. destruct u as [|u]; [done|].
    injection Hstep as <-. unfold perform. run_handler. cbn. lia.
  - cbn [uploads] in Hstep. destruct u as [|u]; [done|].
    injection Hstep as <-. unfold perform. cbn [ui uploads].
    assert (u = 0) as -> by (destruct (isUploading s); lia).
    destruct o as [res|err]; by run_handler.
Qed.

Lemma one_upload_run evs : forall w w',
  one_upload w -> run w evs = Some w' -> one_upload w'.
Proof.
  induction evs as [|ev evs IH]; intros w w' Inv Hrun; cbn in Hrun.
  - by injection Hrun as <-.
  - destruct (step w ev) as [w1|] eqn:Hstep; [|done].
    eapply IH; [|exact Hrun]. by eapply one_upload_step.
Qed.

(** C2, as the component has it.  [handleSendPhoto] does nothing when no
    file is selected; while an upload is in flight the "Send Photo" button is
    disabled, so a click on it starts no upload and changes no field; and on
    every run of the dialog at most one upload is in flight, namely exactly
    while [isUploading] is set. *)
Theorem confirmSend_guards (s : State) (w w1 w2 : World) (evs : list Event) :
  (selectedFile s = None ->
   exec (handleSendPhoto chatId userId) s = (s, []))
  /\ (isUploading (ui w) = true -> step w ClickSendPhoto = Some w1 ->
      w1 = w)
  /\ (run mounted evs = Some w2 ->
      uploads w2 <= 1 /\ (uploads w2 = 1 <-> isUploading (ui w2) = true)).
Proof.
  split; [apply handleSendPhoto_no_file|].
  split; [apply ClickSendPhoto_while_uploading|].
  intros Hrun.
  pose proof (one_upload_run evs mounted w2 one_upload_mounted Hrun) as Inv.
  unfold one_upload in Inv. destruct (isUploading (ui w2)); rewrite Inv.
  - split; [lia|done].
  - split; [lia|]. split; [lia|done].
Qed.

(** *** Selecting *)

(** C3, as the component has it.  A file that passes validation is stored
    at once and the reader is started; with no upload in flight the session
    is [Ready] and "Send Photo" is enabled from that moment, with
    [previewUrl] still what it was.  The preview is written later, by the
    reader's load event, when its result is a non-empty string. *)
Theorem handleFileSelect_valid_file (file : File) (s : State) :
  isValid (validateImageFile file) = true ->
  exists s',
    exec (handleFileSelect validateImageFile (Some file)) s
      = (s', [ReadAsDataURL file])
    /\ selectedFile s' = Some file
    /\ error s' = ""
    /\ previewUrl s' = previewUrl s
    /\ sendPhotoButton s' = (if isUploading s then Disabled else Enabled)
    /\ status_of s' = (if isUploading s then Uploading else Ready)
    /\ forall result, result <> "" ->
         exists s'',
           exec (reader_onload (Some result)) s' = (s'', [])
           /\ previewUrl s'' = result
           /\ selectedFile s'' = Some file
           /\ status_of s'' = status_of s'.
Proof.
  intros Hv. eexists. split; [by apply handleFileSelect_accepted|].
  unfold sendPhotoButton, status_of.
  cbn [selectedFile error previewUrl isUploading truthy String.eqb negb].
  repeat split. intros result Hres. apply truthy_nonempty in Hres.
  eexists. run_handler. rewrite Hres. by repeat split.
Qed.

End Dialog.

Abbreviation run_sample :=
  (run StorageUtils.validate StorageUtils.classify "default" "anonymous").
Abbreviation step_sample :=
  (step StorageUtils.validate StorageUtils.classify "default" "anonymous").

(** C2 is not what [handleSendPhoto] does in [Failed].  After an upload
    that failed the file is still selected, the button is enabled, and
    confirming again clears the error and starts a second upload. *)
Lemma confirmSend_in_Failed_uploads_again :
  exists w w',
    run_sample mounted
      [PickFile (Some StorageUtils.jpeg2MB);
       ReaderLoaded (Some "data:image/jpeg;base64,/9j/4AAQ");
       ClickSendPhoto;
       Progress 40%Q;
       UploadSettled (Rejected StorageUtils.networkError)] = Some w
    /\ status_of (ui w) = Failed
    /\ status_of (ui w) <> Ready
    /\ uploads w = 0
    /\ step_sample w ClickSendPhoto = Some w'
    /\ exec (handleSendPhoto "default" "anonymous") (ui w)
       = (ui w', [UploadChatPhoto StorageUtils.jpeg2MB "default" "anonymous"])
    /\ uploads w' = 1
    /\ isUploading (ui w) = false /\ isUploading (ui w') = true
    /\ error (ui w) = StorageUtils.messageOf StorageUtils.Network
    /\ error (ui w') = "".
Proof.
  eexists. eexists. split; [vm_compute; reflexivity|].
  split; [reflexivity|]. split; [discriminate|]. split; [reflexivity|].
  split; [vm_compute; reflexivity|].
  repeat split.
Qed.

(** C2, at the empty dialog, at a dialog with an upload in flight, and on
    the run that leads there. *)
Lemma confirmSend_guards_witness :
  exists w,
    run_sample mounted
      [PickFile (Some StorageUtils.jpeg2MB); ClickSendPhoto] = Some w
    /\ isUploading (ui w) = true
    /\ step_sample w ClickSendPhoto = Some w
    /\ exec (handleSendPhoto "default" "anonymous") initial = (initial, [])
    /\ uploads w <= 1.
Proof.
  eexists. split; [vm_compute; reflexivity|].
  match goal with
  | |- isUploading (ui ?w) = _ /\ _ =>
      pose proof (confirmSend_guards StorageUtils.validate
                    StorageUtils.classify "default" "anonymous"
                    initial w w w
                    [PickFile (Some StorageUtils.jpeg2MB); ClickSendPhoto])
        as (Hnone & Hbusy & Hone)
  end.
  split; [reflexivity|]. split; [vm_compute; reflexivity|].
  split; [apply Hnone; reflexivity|].
  apply Hone. vm_compute; reflexivity.
Defined.

(** C3 is not what the dialog does.  Right after a valid file is picked the
    session is [Ready] and "Send Photo" is enabled while [previewUrl] is
    still empty and the reader has not answered; confirming then uploads
    the file with no preview derived. *)
Lemma confirmSend_callable_before_preview :
  exists w w',
    isValid (StorageUtils.validate StorageUtils.jpeg2MB) = true
    /\ run_sample mounted [PickFile (Some StorageUtils.jpeg2MB)] = Some w
    /\ status_of (ui w) = Ready
    /\ sendPhotoButton (ui w) = Enabled
    /\ previewUrl (ui w) = ""
    /\ previewImage (ui w) = Some ""
    /\ reads w = 1
    /\ step_sample w ClickSendPhoto = Some w'
    /\ log w' = [ReadAsDataURL StorageUtils.jpeg2MB;
                 UploadChatPhoto StorageUtils.jpeg2MB "default" "anonymous"]
    /\ previewUrl (ui w') = "".
Proof.
  eexists. eexists. split; [reflexivity|].
  split; [vm_compute; reflexivity|].
  do 5 (split; [reflexivity|]).
  split; [vm_compute; reflexivity|].
  by split.
Qed.

(** C3, at the 2 MB JPEG of the specification's scenario. *)
Lemma handleFileSelect_valid_file_witness :
  isValid (StorageUtils.validate StorageUtils.jpeg2MB) = true
  /\ exists s',
       exec (handleFileSelect StorageUtils.validate
               (Some StorageUtils.jpeg2MB)) initial
         = (s', [ReadAsDataURL StorageUtils.jpeg2MB])
       /\ sendPhotoButton s' = Enabled
       /\ previewUrl s' = "".
Proof.
  split; [reflexivity|].
  destruct (handleFileSelect_valid_file StorageUtils.validate
              StorageUtils.jpeg2MB initial eq_refl)
    as (s' & Hexec & _ & _ & Hprev & Hbtn & _).
  exists s'. by repeat split.
Defined.

(** *** Progress *)

(** The [catch] and [finally] blocks of [handleSendPhoto] do not write
    [uploadProgress]. *)
Lemma upload_failure_keeps_progress g err s :
  uploadProgress (exec (handleSendPhoto_settled g (Rejected err)) s).1
  = uploadProgress s.
Proof. by run_handler. Qed.

(** C4 fails on the failure path: an upload that reported 40 percent and
    then failed leaves the dialog not uploading, [Failed], with
    [uploadProgress] still 40; and the value survives "Change Photo" and
    the choice of a new file, which makes the session [Ready] again. *)
Theorem progress_after_failed_upload :
  exists w w',
    run_sample mounted
      [PickFile (Some StorageUtils.jpeg2MB);
       ReaderLoaded (Some "data:image/jpeg;base64,/9j/4AAQ");
       ClickSendPhoto;
       Progress 40%Q;
       UploadSettled (Rejected StorageUtils.networkError)] = Some w
    /\ isUploading (ui w) = false
    /\ uploads w = 0
    /\ status_of (ui w) = Failed
    /\ uploadProgress (ui w) = 40%Q
    /\ ~ (uploadProgress (ui w) == 0)%Q
    /\ run_sample w
         [ClickChangePhoto; PickFile (Some StorageUtils.jpeg2MB)] = Some w'
    /\ isUploading (ui w') = false
    /\ status_of (ui w') = Ready
    /\ uploadProgress (ui w') = 40%Q.
Proof.
  eexists. eexists. split; [vm_compute; reflexivity|].
  do 4 (split; [reflexivity|]). split; [discriminate|].
  split; [vm_compute; reflexivity|]. by repeat split.
Qed.

(** The successful scenario of the specification: a 2 MB JPEG is picked and
    previewed, the upload reports 0, 40 and 100 and resolves; the parent is
    told the URL and the path once and the dialog is back to [Idle]. *)
Example successful_upload_scenario :
  exists w,
    run_sample mounted
      [PickFile (Some StorageUtils.jpeg2MB);
       ReaderLoaded (Some "data:image/jpeg;base64,/9j/4AAQ");
       ClickSendPhoto;
       Progress 0%Q; Progress 40%Q; Progress 100%Q;
       UploadSettled (Fulfilled StorageUtils.photoResult)] = Some w
    /\ ui w = initial
    /\ status_of (ui w) = Idle
    /\ log w = [ReadAsDataURL StorageUtils.jpeg2MB;
                UploadChatPhoto StorageUtils.jpeg2MB "default" "anonymous";
                OnPhotoSelected (url StorageUtils.photoResult)
                  (path StorageUtils.photoResult)].
Proof. eexists. split; [vm_compute; reflexivity|]. by repeat split. Qed.

End PhotoSharingSpec.

(** * Properties of the profile image binding *)

Module ProfilePageSpec.
Import JS ProfilePage.

Ltac unfold_callback H :=
  unfold setUploadProgress, modify in H;
  cbn [ui users profileImage uploadingImage uploadProgress] in H.

Ltac run_handler :=
  unfold handleImageChange, try_catch_finally, await_updateDoc,
    setProfileImage, setUploadingImage, setUploadProgress, modify, emit,
    throw, mbind, mret, M_bind, M_ret;
  cbn [ui users profileImage uploadingImage uploadProgress].

Section Binding.

Variable env : Env.
Variable file : File.
Variable user : User.

(** The progress callbacks write [uploadProgress] and nothing else. *)
Lemma progress_reports image busy docs ps : forall q,
  exists q',
    foldr (fun p k => setUploadProgress p;; k) (mret tt) ps
      {| ui := {| profileImage := image; uploadingImage := busy;
                  uploadProgress := q |}; users := docs |}
    = (inr tt,
       {| ui := {| profileImage := image; uploadingImage := busy;
                   uploadProgress := q' |}; users := docs |}, []).
Proof.
  induction ps as [|p ps IH]; intros q; cbn [foldr].
  - by exists q.
  - destruct (IH p) as [q' Hq']. exists q'.
    unfold mbind at 1. unfold M_bind at 1.
    unfold setUploadProgress at 1. unfold modify.
    cbn [ui users profileImage uploadingImage uploadProgress].
    by rewrite Hq'.
Qed.

Lemma await_upload image busy docs q :
  exists q',
    await_uploadProfileImage env file (uid user)
      (fun progress => setUploadProgress progress)
      {| ui := {| profileImage := image; uploadingImage := busy;
                  uploadProgress := q |}; users := docs |}
    = (match upload_settles env with
       | Fulfilled result => inr result
       | Rejected e => inl e
       end,
       {| ui := {| profileImage := image; uploadingImage := busy;
                   uploadProgress := q' |}; users := docs |},
       [UploadProfileImage file (uid user)]).
Proof.
  destruct (progress_reports image busy docs (upload_progress env) q)
    as [q' Hq'].
  exists q'. unfold await_uploadProfileImage.
  unfold mbind at 1 2. unfold M_bind at 1 2. unfold emit at 1.
  rewrite Hq'. by destruct (upload_settles env).
Qed.

(** The three outcomes of a run with a file and a user. *)
Lemma handleImageChange_upload_fails w e :
  upload_settles env = Rejected e ->
  handleImageChange env (Some file) (Some user) w =
  (inr tt,
   {| ui := {| profileImage := profileImage (ui w); uploadingImage := false;
               uploadProgress := 0%Q |}; users := users w |},
   [UploadProfileImage file (uid user);
    ConsoleError "Error uploading profile image:" e;
    Alert "Failed to upload image. Please try again."]).
Proof.
  intros Hup.
  destruct (await_upload (profileImage (ui w)) true (users w) 0%Q)
    as [q' Hq'].
  rewrite Hup in Hq'. unfold_callback Hq'.
  run_handler. unfold M_bind. by rewrite Hq'.
Qed.

Lemma handleImageChange_write_fails w result e :
  upload_settles env = Fulfilled result ->
  updateDoc_error env (users w) (uid user) = Some e ->
  handleImageChange env (Some file) (Some user) w =
  (inr tt,
   {| ui := {| profileImage := Some (url result); uploadingImage := false;
               uploadProgress := 0%Q |}; users := users w |},
   [UploadProfileImage file (uid user);
    UpdateDoc "users" (uid user) (imageFields result (clock env));
    ConsoleError "Error uploading profile image:" e;
    Alert "Failed to upload image. Please try again."]).
Proof.
  intros Hup Hwr.
  destruct (await_upload (profileImage (ui w)) true (users w) 0%Q)
    as [q' Hq'].
  rewrite Hup in Hq'. unfold_callback Hq'. unfold updateDoc_error in Hwr.
  run_handler. unfold M_bind. rewrite Hq'.
  cbn [ui users profileImage uploadingImage uploadProgress].
  destruct (write_refused env) as [e'|].
  - by injection Hwr as ->.
  - cbn [ui users]. destruct (users w !! uid user); [done|].
    by injection Hwr as <-.
Qed.

Lemma handleImageChange_written w result d :
  upload_settles env = Fulfilled result ->
  updateDoc_error env (users w) (uid user) = None ->
  users w !! uid user = Some d ->
  handleImageChange env (Some file) (Some user) w =
  (inr tt,
   {| ui := {| profileImage := Some (url result); uploadingImage := false;
               uploadProgress := 0%Q |};
      users := <[uid user :=
                   list_to_map (imageFields result (clock env)) ∪ d]>
                 (users w) |},
   [UploadProfileImage file (uid user);
    UpdateDoc "users" (uid user) (imageFields result (clock env));
    ConsoleLog "Profile image uploaded successfully!"]).
Proof.
  intros Hup Hwr Hd.
  destruct (await_upload (profileImage (ui w)) true (users w) 0%Q)
    as [q' Hq'].
  rewrite Hup in Hq'. unfold_callback Hq'. unfold updateDoc_error in Hwr.
  run_handler. unfold M_bind. rewrite Hq'.
  cbn [ui users profileImage uploadingImage uploadProgress].
  destruct (write_refused env) as [e'|]; [done|].
  cbn [ui users]. by rewrite Hd.
Qed.

(** C7.  When the upload resolves with [result], the handler issues one
    document write: [updateDoc] on [users/<uid>] of the current user with
    exactly [profileImage := result.url], [profileImagePath := result.path]
    and [updatedAt := new Date()].  When the store accepts it, the user's
    record holds these three values, its other fields are as before, and no
    other record changes. *)
Theorem upload_success_writes_three_fields (w : World) (result : UploadResult) :
  upload_settles env = Fulfilled result ->
  exists r w' es,
    handleImageChange env (Some file) (Some user) w = (r, w', es)
    /\ writes es =
       [("users", uid user,
         [("profileImage", VString (url result));
          ("profileImagePath", VString (path result));
          ("updatedAt", VDate (clock env))])]
    /\ (updateDoc_error env (users w) (uid user) = None ->
        exists d d',
          users w !! uid user = Some d
          /\ users w' !! uid user = Some d'
          /\ d' !! "profileImage" = Some (VString (url result))
          /\ d' !! "profileImagePath" = Some (VString (path result))
          /\ d' !! "updatedAt" = Some (VDate (clock env))
          /\ (forall k, k ∉ ["profileImage"; "profileImagePath"; "updatedAt"]
                -> d' !! k = d !! k)
          /\ (forall id, id <> uid user -> users w' !! id = users w !! id)).
Proof.
  intros Hup.
  destruct (updateDoc_error env (users w) (uid user)) as [e|] eqn:Hwr.
  - do 3 eexists. split; [by apply handleImageChange_write_fails|].
    split; [reflexivity|done].
  - assert (exists d, users w !! uid user = Some d) as [d Hd].
    { unfold updateDoc_error in Hwr. destruct (write_refused env); [done|].
      destruct (users w !! uid user) as [d|]; [by exists d|done]. }
    do 3 eexists. split; [by eapply handleImageChange_written|].
    split; [reflexivity|]. intros _. exists d. eexists.
    cbn [users]. split; [done|]. split; [apply lookup_insert_eq|].
    unfold imageFields. cbn [list_to_map foldr uncurry fst snd].
    repeat split.
    + apply lookup_union_Some_l. by simplify_map_eq.
    + apply lookup_union_Some_l. by simplify_map_eq.
    + apply lookup_union_Some_l. by simplify_map_eq.
    + intros k Hk. apply lookup_union_r.
      rewrite !not_elem_of_cons in Hk. destruct Hk as (H1 & H2 & H3 & _).
      by rewrite !lookup_insert_ne, lookup_empty.
    + intros id Hid. by rewrite lookup_insert_ne.
Qed.

(** C8.  After a successful upload, a write that fails with [e] is logged
    and answered with the fixed alert text; these two calls are all that
    follows the write, so nothing is rolled back or deleted, and the stored
    records are untouched.  Whether the write fails or not, the handler ends
    normally with [uploadingImage] off and [uploadProgress] back at 0. *)
Theorem persistence_failure_alert (w : World) (result : UploadResult) :
  upload_settles env = Fulfilled result ->
  (forall e, updateDoc_error env (users w) (uid user) = Some e ->
     exists w',
       handleImageChange env (Some file) (Some user) w =
       (inr tt, w',
        [UploadProfileImage file (uid user);
         UpdateDoc "users" (uid user) (imageFields result (clock env));
         ConsoleError "Error uploading profile image:" e;
         Alert "Failed to upload image. Please try again."])
       /\ users w' = users w
       /\ uploadingImage (ui w') = false
       /\ uploadProgress (ui w') = 0%Q)
  /\ (updateDoc_error env (users w) (uid user) = None ->
      exists w' es,
        handleImageChange env (Some file) (Some user) w = (inr tt, w', es)
        /\ (forall msg, Alert msg ∉ es)
        /\ uploadingImage (ui w') = false
        /\ uploadProgress (ui w') = 0%Q).
Proof.
  intros Hup. split.
  - intros e Hwr. eexists.
    split; [by apply handleImageChange_write_fails|]. by repeat split.
  - intros Hwr.
    assert (exists d, users w !! uid user = Some d) as [d Hd].
    { unfold updateDoc_error in Hwr. destruct (write_refused env); [done|].
      destruct (users w !! uid user) as [d|]; [by exists d|done]. }
    do 2 eexists. split; [by eapply handleImageChange_written|].
    split; [|by split].
    intros msg Hin. rewrite !elem_of_cons in Hin.
    destruct Hin as [?|[?|[?|Hnil]]]; try done. by apply elem_of_nil in Hnil.
Qed.

(** C10.  After a successful upload followed by a failed write, the local
    [profileImage] is the new remote URL while the stored records are what
    they were: the [catch] block does not put the old image back. *)
Theorem local_image_kept_when_write_fails
    (w : World) (result : UploadResult) (e : Thrown) :
  upload_settles env = Fulfilled result ->
  updateDoc_error env (users w) (uid user) = Some e ->
  exists w' es,
    handleImageChange env (Some file) (Some user) w = (inr tt, w', es)
    /\ profileImage (ui w') = Some (url result)
    /\ users w' = users w
    /\ (forall d, users w !! uid user = Some d ->
        d !! "profileImage" <> Some (VString (url result)) ->
        exists d', users w' !! uid user = Some d'
          /\ d' !! "profileImage" <> VString <$> profileImage (ui w')).
Proof.
  intros Hup Hwr. do 2 eexists.
  split; [by apply handleImageChange_write_fails|].
  cbn [ui users profileImage]. repeat split.
  intros d Hd Hne. by exists d.
Qed.

End Binding.

(** C9.  Without a file or without a signed-in user [handleImageChange]
    returns at once: the page state and the stored records are unchanged and
    no call is made. *)
Theorem handleImageChange_without_file_or_user
    (env : Env) (file : option File) (user : option User) (w : World) :
  file = None \/ user = None ->
  handleImageChange env file user w = (inr tt, w, []).
Proof.
  intros [-> | ->]; [done|]. by destruct file.
Qed.

Import ProfileFixtures.

(** C7, at a run where the write is accepted: the record gets the three
    fields and keeps its [name]. *)
Lemma upload_success_writes_three_fields_witness :
  upload_settles allGood = Fulfilled avatarResult
  /\ updateDoc_error allGood (users page) (uid alice) = None
  /\ exists r w' es,
       handleImageChange allGood (Some avatar) (Some alice) page = (r, w', es)
       /\ writes es =
          [("users", "alice",
            [("profileImage", VString (url avatarResult));
             ("profileImagePath", VString (path avatarResult));
             ("updatedAt", VDate 1700000000000)])]
       /\ exists d',
            users w' !! "alice" = Some d'
            /\ d' !! "profileImage" = Some (VString (url avatarResult))
            /\ d' !! "profileImagePath" = Some (VString (path avatarResult))
            /\ d' !! "updatedAt" = Some (VDate 1700000000000)
            /\ d' !! "name" = Some (VString "Love").
Proof.
  split; [reflexivity|].
  assert (Hok : updateDoc_error allGood (users page) (uid alice) = None)
    by (vm_compute; reflexivity).
  split; [exact Hok|].
  destruct (upload_success_writes_three_fields allGood avatar alice page
              avatarResult eq_refl) as (r & w' & es & Hrun & Hwrites & Hdoc).
  destruct (Hdoc Hok) as (d & d' & Hd & Hd' & Himg & Hpath & Hat & Hrest & _).
  exists r, w', es. split; [exact Hrun|]. split; [exact Hwrites|].
  exists d'. split; [exact Hd'|]. do 3 (split; [assumption|]).
  assert (d = aliceDoc) as ->.
  { cbn [users page uid alice] in Hd. rewrite lookup_singleton_eq in Hd.
    congruence. }
  rewrite Hrest.
  - vm_compute. reflexivity.
  - rewrite !not_elem_of_cons. repeat split; try discriminate.
    apply not_elem_of_nil.
Defined.

(** C8, at a run where the store refuses the write. *)
Lemma persistence_failure_alert_witness :
  upload_settles writeRefused = Fulfilled avatarResult
  /\ updateDoc_error writeRefused (users page) (uid alice)
     = Some permissionDenied
  /\ exists w',
       handleImageChange writeRefused (Some avatar) (Some alice) page =
       (inr tt, w',
        [UploadProfileImage avatar "alice";
         UpdateDoc "users" "alice"
           (imageFields avatarResult (clock writeRefused));
         ConsoleError "Error uploading profile image:" permissionDenied;
         Alert "Failed to upload image. Please try again."])
       /\ users w' = users page
       /\ uploadingImage (ui w') = false
       /\ uploadProgress (ui w') = 0%Q.
Proof.
  split; [reflexivity|]. split; [reflexivity|].
  destruct (persistence_failure_alert writeRefused avatar alice page
              avatarResult eq_refl) as [Hfail _].
  exact (Hfail permissionDenied eq_refl).
Defined.

(** C9, at a change event that carries no file. *)
Lemma handleImageChange_without_file_or_user_witness :
  handleImageChange allGood None (Some alice) page = (inr tt, page, []).
Proof.
  apply (handleImageChange_without_file_or_user allGood None (Some alice) page).
  left. reflexivity.
Defined.

(** C10, at a run where the store refuses the write. *)
Lemma local_image_kept_when_write_fails_witness :
  upload_settles writeRefused = Fulfilled avatarResult
  /\ updateDoc_error writeRefused (users page) (uid alice)
     = Some permissionDenied
  /\ exists w' es,
       handleImageChange writeRefused (Some avatar) (Some alice) page
         = (inr tt, w', es)
       /\ profileImage (ui w') = Some (url avatarResult)
       /\ users w' = users page.
Proof.
  split; [reflexivity|]. split; [reflexivity|].
  destruct (local_image_kept_when_write_fails writeRefused avatar alice page
              avatarResult permissionDenied eq_refl eq_refl)
    as (w' & es & Hrun & Himg & Hdocs & _).
  by exists w', es.
Defined.

End ProfilePageSpec.

(** * Further properties of the photo sharing dialog *)

Module PhotoSharingRuns.
Import JS PhotoSharingInput PhotoSharingLog.
Import PhotoSharingSpec.

Lemma count_app p es1 es2 :
  count p (es1 ++ es2)%list = count p es1 + count p es2.
Proof. unfold count. by rewrite List.filter_app, length_app. Qed.

Section Dialog.

Variable validateImageFile : File -> Validation.
Variable getStorageErrorMessage : Thrown -> string.
Variables chatId userId : string.

Abbreviation step :=
  (step validateImageFile getStorageErrorMessage chatId userId).
Abbreviation run :=
  (run validateImageFile getStorageErrorMessage chatId userId).

(** What one event does to a world, handler by handler. *)
Lemma step_PickFile_accepted w f :
  selectedFile (ui w) = None -> isValid (validateImageFile f) = true ->
  step w (PickFile (Some f)) =
  Some {| ui := {| selectedFile := Some f; previewUrl := previewUrl (ui w);
                   isUploading := isUploading (ui w);
                   uploadProgress := uploadProgress (ui w); error := "" |};
          uploads := uploads w + 0; reads := reads w + 1;
          log := (log w ++ [ReadAsDataURL f])%list |}.
Proof.
  intros Hsel Hv. cbn [PhotoSharingInput.step]. unfold fileInput.
  rewrite Hsel. cbn [click]. unfold perform.
  by rewrite handleFileSelect_accepted.
Qed.

Lemma step_PickFile_rejected w f :
  selectedFile (ui w) = None -> isValid (validateImageFile f) = false ->
  step w (PickFile (Some f)) =
  Some {| ui := {| selectedFile := None; previewUrl := previewUrl (ui w);
                   isUploading := isUploading (ui w);
                   uploadProgress := uploadProgress (ui w);
                   error := or_else (verror (validateImageFile f))
                              "Invalid file" |};
          uploads := uploads w + 0; reads := reads w + 0;
          log := (log w ++ [])%list |}.
Proof.
  intros Hsel Hv. cbn [PhotoSharingInput.step]. unfold fileInput.
  rewrite Hsel. cbn [click]. unfold perform.
  rewrite handleFileSelect_rejected by done. by rewrite Hsel.
Qed.

Lemma step_ClickSendPhoto_enabled w f :
  selectedFile (ui w) = Some f -> isUploading (ui w) = false ->
  step w ClickSendPhoto =
  Some {| ui := {| selectedFile := Some f; previewUrl := previewUrl (ui w);
                   isUploading := true; uploadProgress := 0%Q;
                   error := "" |};
          uploads := uploads w + 1; reads := reads w + 0;
          log := (log w ++ [UploadChatPhoto f chatId userId])%list |}.
Proof.
  intros Hsel Hup. cbn [PhotoSharingInput.step]. unfold sendPhotoButton.
  rewrite Hsel, Hup. cbn [click]. unfold perform.
  by rewrite (handleSendPhoto_file _ _ _ f).
Qed.

Lemma step_UploadSettled w n o :
  uploads w = S n ->
  step w (UploadSettled o) =
  Some {| ui := (exec (handleSendPhoto_settled getStorageErrorMessage o)
                   (ui w)).1;
          uploads := n; reads := reads w + 0;
          log := (log w ++
                  (exec (handleSendPhoto_settled getStorageErrorMessage o)
                     (ui w)).2)%list |}.
Proof.
  intros Hn. cbn [PhotoSharingInput.step]. rewrite Hn. unfold perform.
  destruct o as [result|err]; by run_handler.
Qed.

Lemma reader_onload_exec result s :
  exec (reader_onload result) s =
  ({| selectedFile := selectedFile s;
      previewUrl := match result with
                    | Some d => if truthy d then d else previewUrl s
                    | None => previewUrl s
                    end;
      isUploading := isUploading s; uploadProgress := uploadProgress s;
      error := error s |}, []).
Proof.
  destruct s. destruct result as [d|]; run_handler; [|done].
  by destruct (truthy d).
Qed.

Lemma step_ReaderLoaded w n result :
  reads w = S n ->
  step w (ReaderLoaded result) =
  Some {| ui := (exec (reader_onload result) (ui w)).1;
          uploads := uploads w + 0; reads := n;
          log := (log w ++ [])%list |}.
Proof.
  intros Hn. cbn [PhotoSharingInput.step]. rewrite Hn. unfold perform.
  by rewrite reader_onload_exec.
Qed.

Lemma step_Progress w n p :
  uploads w = S n ->
  step w (Progress p) =
  Some {| ui := {| selectedFile := selectedFile (ui w);
                   previewUrl := previewUrl (ui w);
                   isUploading := isUploading (ui w);
                   uploadProgress := p; error := error (ui w) |};
          uploads := uploads w + 0; reads := reads w + 0;
          log := (log w ++ [])%list |}.
Proof.
  intros Hn. cbn [PhotoSharingInput.step]. rewrite Hn. unfold perform.
  run_handler. cbn [started foldr]. by rewrite Hn.
Qed.

(** Splits a step into the cases of its event and of the controls. *)
Ltac step_cases Hstep :=
  match type of Hstep with
  | PhotoSharingInput.step _ _ _ _ ?w ?ev = Some _ =>
      destruct w as [s u r l];
      destruct ev as [[file|]|result| | | | |p|o];
      cbn [PhotoSharingInput.step ui uploads reads log] in Hstep;
      unfold fileInput, sendPhotoButton, changePhotoButton, removeButton
        in Hstep;
      destruct (selectedFile s) as [sel|] eqn:Hsel;
      destruct (isUploading s) eqn:Hup;
      destruct u as [|u]; destruct r as [|r];
      cbn [click] in Hstep; try discriminate Hstep;
      injection Hstep as <-; unfold perform;
      try (destruct (isValid (validateImageFile file)) eqn:Hv;
           [rewrite handleFileSelect_accepted by done
           |rewrite handleFileSelect_rejected by done]);
      run_handler;
      repeat (progress
        (cbn [started foldr ui uploads reads log selectedFile previewUrl
              isUploading uploadProgress error fst snd];
         rewrite ?Hsel, ?Hup))
  end.

Lemma uploads_accepted_step w ev w' :
  uploads_accepted validateImageFile chatId userId w ->
  step w ev = Some w' ->
  uploads_accepted validateImageFile chatId userId w'.
Proof.
  unfold uploads_accepted. intros [Hfile Hlog] Hstep.
  step_cases Hstep; cbn [ui log selectedFile] in Hfile, Hlog.
  all: try (destruct result as [res|]; [destruct (truthy res)|]);
    try (destruct o as [res|err]);
    cbn [ui log selectedFile fst snd exec];
    (split; [intros f' Hf'; simplify_eq; eauto
            |intros f' c' u' Hin; set_unfold in Hin;
             destruct_or?; simplify_eq; eauto]).
Qed.

Lemma run_app w evs1 evs2 :
  run w (evs1 ++ evs2) =
  match run w evs1 with Some w1 => run w1 evs2 | None => None end.
Proof.
  revert w. induction evs1 as [|ev evs1 IH]; intros w; [done|].
  cbn [PhotoSharingInput.run app]. by destruct (step w ev).
Qed.

Lemma uploads_accepted_run evs : forall w w',
  uploads_accepted validateImageFile chatId userId w ->
  run w evs = Some w' ->
  uploads_accepted validateImageFile chatId userId w'.
Proof.
  induction evs as [|ev evs IH]; intros w w' Inv Hrun; cbn in Hrun.
  - by injection Hrun as <-.
  - destruct (step w ev) as [w1|] eqn:Hstep; [|done].
    eapply IH; [|exact Hrun]. by eapply uploads_accepted_step.
Qed.

Lemma uploads_balanced_step w ev w' :
  uploads_balanced w -> step w ev = Some w' -> uploads_balanced w'.
Proof.
  unfold uploads_balanced. intros Inv Hstep.
  step_cases Hstep; cbn [ui log uploads] in Inv.
  all: try (destruct result as [res|]; [destruct (truthy res)|]);
    try (destruct o as [res|err]);
    cbn [ui log uploads fst snd exec started foldr app selectedFile
         previewUrl isUploading uploadProgress error];
    rewrite ?count_app; unfold count in *;
    cbn [List.filter is_upload is_notification is_failure_report length];
    lia.
Qed.

Lemma uploads_balanced_run evs : forall w w',
  uploads_balanced w -> run w evs = Some w' -> uploads_balanced w'.
Proof.
  induction evs as [|ev evs IH]; intros w w' Inv Hrun; cbn in Hrun.
  - by injection Hrun as <-.
  - destruct (step w ev) as [w1|] eqn:Hstep; [|done].
    eapply IH; [|exact Hrun]. by eapply uploads_balanced_step.
Qed.

(** Progress reports during an upload change [uploadProgress] only. *)
Lemma run_Progress ps : forall sel pv up q er n r l,
  exists q',
    run {| ui := {| selectedFile := sel; previewUrl := pv;
                    isUploading := up; uploadProgress := q; error := er |};
           uploads := S n; reads := r; log := l |} (map Progress ps)
    = Some {| ui := {| selectedFile := sel; previewUrl := pv;
                       isUploading := up; uploadProgress := q';
                       error := er |};
              uploads := S n; reads := r; log := l |}.
Proof.
  induction ps as [|p ps IH]; intros sel pv up q er n r l.
  - by exists q.
  - destruct (IH sel pv up p er n r l) as [q' Hq']. exists q'.
    cbn [map PhotoSharingInput.run].
    rewrite (step_Progress _ n) by done.
    cbn [ui uploads reads log selectedFile previewUrl isUploading error].
    by rewrite !Nat.add_0_r, app_nil_r.
Qed.

(** X1.  On every run of the dialog, each call of [uploadChatPhoto] is made
    with a file that [validateImageFile] accepted and with the component's
    own [chatId] and [userId]. *)
Theorem only_accepted_files_are_uploaded
    (evs : list Event) (w : World) (f : File) (c u : string) :
  run mounted evs = Some w ->
  UploadChatPhoto f c u ∈ log w ->
  isValid (validateImageFile f) = true /\ c = chatId /\ u = userId.
Proof.
  intros Hrun Hin.
  assert (Inv : uploads_accepted validateImageFile chatId userId mounted).
  { split; [done|]. intros f' c' u' Hin'. by apply elem_of_nil in Hin'. }
  destruct (uploads_accepted_run evs mounted w Inv Hrun) as [_ Hlog].
  by apply Hlog.
Qed.

(** X2.  On every run, the uploads started equal the parent notifications
    plus the failures logged plus the uploads still pending, and at most one
    is pending: the parent is told about a photo at most once per upload,
    and never without one. *)
Theorem every_upload_is_answered_once (evs : list Event) (w : World) :
  run mounted evs = Some w ->
  count is_upload (log w) =
    count is_notification (log w) + count is_failure_report (log w)
    + uploads w
  /\ uploads w <= 1.
Proof.
  intros Hrun. split.
  - by apply (uploads_balanced_run evs mounted w).
  - pose proof (one_upload_run _ _ _ _ evs mounted w one_upload_mounted Hrun)
      as Inv.
    unfold one_upload in Inv. destruct (isUploading (ui w)); lia.
Qed.

(** X3.  Select, preview, send, any progress reports, success: the parent is
    told the URL and the path once, and the dialog is exactly as it was on
    mount, ready for the next photo. *)
Theorem successful_upload_resets_dialog
    (f : File) (dataUrl : option string) (ps : list Q) (r : UploadResult) :
  isValid (validateImageFile f) = true ->
  run mounted
    (PickFile (Some f) :: ReaderLoaded dataUrl :: ClickSendPhoto ::
     map Progress ps ++ [UploadSettled (Fulfilled r)])%list
  = Some {| ui := initial; uploads := 0; reads := 0;
            log := [ReadAsDataURL f; UploadChatPhoto f chatId userId;
                    OnPhotoSelected (url r) (path r)] |}.
Proof.
  intros Hv. cbn [PhotoSharingInput.run].
  rewrite step_PickFile_accepted by done.
  rewrite (step_ReaderLoaded _ 0) by done.
  rewrite reader_onload_exec.
  cbn [ui uploads reads log mounted initial selectedFile previewUrl
       isUploading uploadProgress error fst Nat.add app].
  rewrite (step_ClickSendPhoto_enabled _ f) by done.
  cbn [ui uploads reads log selectedFile previewUrl Nat.add app].
  rewrite run_app.
  match goal with
  | |- context [{| selectedFile := Some f; previewUrl := ?pv;
                   isUploading := true; uploadProgress := _;
                   error := _ |}] =>
      destruct (run_Progress ps (Some f) pv true 0%Q "" 0 0
                  [ReadAsDataURL f; UploadChatPhoto f chatId userId])
        as [q' Hq']
  end.
  rewrite Hq'. cbn [PhotoSharingInput.run].
  rewrite (step_UploadSettled _ 0) by done.
  by run_handler.
Qed.

(** X4.  A failed upload keeps the file selected, and sending again uploads
    the same file without a new selection; when the retry succeeds the
    error is gone and the dialog is as on mount. *)
Theorem failed_upload_can_be_retried
    (f : File) (e : Thrown) (r : UploadResult) :
  isValid (validateImageFile f) = true ->
  run mounted [PickFile (Some f); ClickSendPhoto; UploadSettled (Rejected e)]
  = Some {| ui := {| selectedFile := Some f; previewUrl := "";
                     isUploading := false; uploadProgress := 0%Q;
                     error := getStorageErrorMessage e |};
            uploads := 0; reads := 1;
            log := [ReadAsDataURL f; UploadChatPhoto f chatId userId;
                    ConsoleError "Error uploading photo:" e] |}
  /\ run mounted
       [PickFile (Some f); ClickSendPhoto; UploadSettled (Rejected e);
        ClickSendPhoto; UploadSettled (Fulfilled r)]
     = Some {| ui := initial; uploads := 0; reads := 1;
               log := [ReadAsDataURL f; UploadChatPhoto f chatId userId;
                       ConsoleError "Error uploading photo:" e;
                       UploadChatPhoto f chatId userId;
                       OnPhotoSelected (url r) (path r)] |}.
Proof.
  intros Hv.
  assert (Hfail :
    run mounted [PickFile (Some f); ClickSendPhoto;
                 UploadSettled (Rejected e)]
    = Some {| ui := {| selectedFile := Some f; previewUrl := "";
                       isUploading := false; uploadProgress := 0%Q;
                       error := getStorageErrorMessage e |};
              uploads := 0; reads := 1;
              log := [ReadAsDataURL f; UploadChatPhoto f chatId userId;
                      ConsoleError "Error uploading photo:" e] |}).
  { cbn [PhotoSharingInput.run].
    rewrite step_PickFile_accepted by done.
    rewrite (step_ClickSendPhoto_enabled _ f) by done.
    cbn [ui uploads reads log mounted initial selectedFile previewUrl
         Nat.add app].
    rewrite (step_UploadSettled _ 0) by done. by run_handler. }
  split; [exact Hfail|].
  change [PickFile (Some f); ClickSendPhoto; UploadSettled (Rejected e);
          ClickSendPhoto; UploadSettled (Fulfilled r)]
    with ([PickFile (Some f); ClickSendPhoto; UploadSettled (Rejected e)]
          ++ [ClickSendPhoto; UploadSettled (Fulfilled r)])%list.
  rewrite run_app, Hfail. cbn [PhotoSharingInput.run].
  rewrite (step_ClickSendPhoto_enabled _ f) by done.
  cbn [ui uploads reads log selectedFile previewUrl Nat.add app].
  rewrite (step_UploadSettled _ 0) by done. by run_handler.
Qed.

Lemma step_ClickClose w :
  step w ClickClose =
  Some {| ui := {| selectedFile := None; previewUrl := "";
                   isUploading := isUploading (ui w);
                   uploadProgress := 0%Q; error := "" |};
          uploads := uploads w + 0; reads := reads w + 0;
          log := (log w ++ [OnCancel])%list |}.
Proof.
  cbn [PhotoSharingInput.step]. unfold perform.
  by rewrite handleCancel_exec.
Qed.

Lemma step_ClickRemove w f :
  selectedFile (ui w) = Some f ->
  step w ClickRemove =
  Some {| ui := {| selectedFile := None; previewUrl := "";
                   isUploading := isUploading (ui w);
                   uploadProgress := uploadProgress (ui w);
                   error := error (ui w) |};
          uploads := uploads w + 0; reads := reads w + 0;
          log := (log w ++ [])%list |}.
Proof.
  intros Hsel. cbn [PhotoSharingInput.step]. unfold removeButton.
  rewrite Hsel. cbn [click]. unfold perform. by run_handler.
Qed.

(** X5.  Closing the dialog does not call off an upload in flight: when it
    resolves afterwards, the parent's [onPhotoSelected] is still called with
    the uploaded photo, after [onCancel]. *)
Theorem close_does_not_stop_the_upload
    (w : World) (n : nat) (r : UploadResult) :
  uploads w = S n ->
  run w [ClickClose; UploadSettled (Fulfilled r)]
  = Some {| ui := initial; uploads := n; reads := reads w;
            log := (log w ++ [OnCancel; OnPhotoSelected (url r) (path r)])
                   %list |}.
Proof.
  intros Hn. cbn [PhotoSharingInput.run].
  rewrite step_ClickClose.
  rewrite (step_UploadSettled _ n)
    by (cbn [uploads]; rewrite Hn; apply Nat.add_0_r).
  run_handler. cbn [ui reads log].
  by rewrite !Nat.add_0_r, <- app_assoc.
Qed.

(** X6.  The remove button works during an upload, and a file chosen after
    it is lost when that upload resolves: the completion clears whatever is
    selected, the parent gets the old photo, and the new file is never
    uploaded although its reader is still running. *)
Theorem late_success_drops_new_selection
    (w : World) (n : nat) (f g : File) (r : UploadResult) :
  selectedFile (ui w) = Some f ->
  uploads w = S n ->
  isValid (validateImageFile g) = true ->
  run w [ClickRemove; PickFile (Some g); UploadSettled (Fulfilled r)]
  = Some {| ui := {| selectedFile := None; previewUrl := "";
                     isUploading := false; uploadProgress := 0%Q;
                     error := "" |};
            uploads := n; reads := reads w + 1;
            log := (log w ++ [ReadAsDataURL g;
                              OnPhotoSelected (url r) (path r)])%list |}.
Proof.
  intros Hsel Hn Hv. cbn [PhotoSharingInput.run].
  rewrite (step_ClickRemove _ f) by done.
  rewrite step_PickFile_accepted by done.
  rewrite (step_UploadSettled _ n)
    by (cbn [uploads]; rewrite Hn, !Nat.add_0_r; done).
  run_handler. cbn [ui reads log].
  by rewrite !Nat.add_0_r, app_nil_r, <- app_assoc.
Qed.

(** X7.  The message of a failed upload is stored but not displayed: the
    error box belongs to the picker, and the file stays selected, with
    "Send Photo" enabled.  It appears once the file is discarded, which
    does not clear it. *)
Theorem upload_error_hidden_until_discard
    (s : State) (f : File) (e : Thrown) :
  selectedFile s = Some f ->
  exists s1 s2,
    exec (handleSendPhoto_settled getStorageErrorMessage (Rejected e)) s
      = (s1, [ConsoleError "Error uploading photo:" e])
    /\ error s1 = getStorageErrorMessage e
    /\ errorBox s1 = None
    /\ sendPhotoButton s1 = Enabled
    /\ exec discardFile s1 = (s2, [])
    /\ errorBox s2 = (if truthy (getStorageErrorMessage e)
                      then Some (getStorageErrorMessage e) else None).
Proof.
  intros Hsel. do 2 eexists.
  split; [by run_handler|]. split; [done|].
  unfold errorBox, sendPhotoButton. cbn [selectedFile isUploading error].
  rewrite Hsel. split; [done|]. split; [done|].
  split; [by run_handler|done].
Qed.

(** X8.  A reader result that arrives after its file was removed is still
    stored, and the next file picked is shown with it: the second file's
    preview is the first file's image until its own reader answers. *)
Theorem stale_preview_shown_for_next_file (f g : File) (dataUrl : string) :
  isValid (validateImageFile f) = true ->
  isValid (validateImageFile g) = true ->
  dataUrl <> "" ->
  exists w,
    run mounted [PickFile (Some f); ClickRemove;
                 ReaderLoaded (Some dataUrl); PickFile (Some g)] = Some w
    /\ selectedFile (ui w) = Some g
    /\ previewImage (ui w) = Some dataUrl
    /\ reads w = 1
    /\ log w = [ReadAsDataURL f; ReadAsDataURL g].
Proof.
  intros Hf Hg Hd. apply truthy_nonempty in Hd. eexists.
  cbn [PhotoSharingInput.run].
  rewrite step_PickFile_accepted by done.
  rewrite (step_ClickRemove _ f) by done.
  rewrite (step_ReaderLoaded _ 0) by done.
  rewrite reader_onload_exec, Hd.
  rewrite step_PickFile_accepted by done.
  split; [reflexivity|]. by repeat split.
Qed.

(** X9.  During an upload "Change Photo" is disabled and a click on it does
    nothing, while the remove button on the preview, which runs the same
    handler, still clears the file and the preview and leaves the upload
    running. *)
Theorem remove_is_not_disabled_while_uploading (w : World) (f : File) :
  selectedFile (ui w) = Some f ->
  isUploading (ui w) = true ->
  step w ClickChangePhoto = Some w
  /\ exists w',
       step w ClickRemove = Some w'
       /\ selectedFile (ui w') = None
       /\ previewUrl (ui w') = ""
       /\ isUploading (ui w') = true
       /\ uploads w' = uploads w
       /\ log w' = log w.
Proof.
  intros Hsel Hup. split.
  - cbn [PhotoSharingInput.step]. unfold changePhotoButton.
    by rewrite Hsel, Hup.
  - eexists. split; [by apply (step_ClickRemove _ f)|].
    cbn [ui uploads log selectedFile previewUrl isUploading].
    by rewrite Nat.add_0_r, app_nil_r.
Qed.

End Dialog.

Abbreviation run_sample :=
  (run StorageUtils.validate StorageUtils.classify "default" "anonymous").
Abbreviation step_sample :=
  (step StorageUtils.validate StorageUtils.classify "default" "anonymous").

(** A dialog with the 2 MB JPEG selected and its upload in flight. *)
Lemma sample_uploading :
  run_sample mounted [PickFile (Some StorageUtils.jpeg2MB); ClickSendPhoto]
  = Some StorageUtils.uploadingJpeg.
Proof. vm_compute. reflexivity. Qed.

(** X1, on the run of a failed upload. *)
Lemma only_accepted_files_are_uploaded_witness :
  exists w,
    run_sample mounted
      [PickFile (Some StorageUtils.jpeg2MB); ClickSendPhoto;
       UploadSettled (Rejected StorageUtils.networkError)] = Some w
    /\ UploadChatPhoto StorageUtils.jpeg2MB "default" "anonymous" ∈ log w
    /\ isValid (StorageUtils.validate StorageUtils.jpeg2MB) = true.
Proof.
  eexists. split; [vm_compute; reflexivity|].
  assert (Hin : UploadChatPhoto StorageUtils.jpeg2MB "default" "anonymous"
                ∈ [ReadAsDataURL StorageUtils.jpeg2MB;
                   UploadChatPhoto StorageUtils.jpeg2MB "default"
                     "anonymous";
                   ConsoleError "Error uploading photo:"
                     StorageUtils.networkError]).
  { do 2 constructor. }
  split; [exact Hin|].
  eapply (only_accepted_files_are_uploaded StorageUtils.validate
            StorageUtils.classify "default" "anonymous"
            [PickFile (Some StorageUtils.jpeg2MB); ClickSendPhoto;
             UploadSettled (Rejected StorageUtils.networkError)]);
    [vm_compute; reflexivity|exact Hin].
Defined.

(** X2, on a run with one upload pending. *)
Lemma every_upload_is_answered_once_witness :
  exists w,
    run_sample mounted
      [PickFile (Some StorageUtils.jpeg2MB); ClickSendPhoto;
       UploadSettled (Rejected StorageUtils.networkError);
       ClickSendPhoto] = Some w
    /\ count is_upload (log w) =
       count is_notification (log w) + count is_failure_report (log w)
       + uploads w
    /\ uploads w <= 1.
Proof.
  eexists. split; [vm_compute; reflexivity|].
  eapply (every_upload_is_answered_once StorageUtils.validate
            StorageUtils.classify "default" "anonymous"
            [PickFile (Some StorageUtils.jpeg2MB); ClickSendPhoto;
             UploadSettled (Rejected StorageUtils.networkError);
             ClickSendPhoto]).
  vm_compute; reflexivity.
Defined.

(** X3, on the successful scenario of the specification. *)
Lemma successful_upload_resets_dialog_witness :
  isValid (StorageUtils.validate StorageUtils.jpeg2MB) = true
  /\ run_sample mounted
       [PickFile (Some StorageUtils.jpeg2MB);
        ReaderLoaded (Some "data:image/jpeg;base64,/9j/4AAQ");
        ClickSendPhoto; Progress 0%Q; Progress 40%Q; Progress 100%Q;
        UploadSettled (Fulfilled StorageUtils.photoResult)]
     = Some {| ui := initial; uploads := 0; reads := 0;
               log := [ReadAsDataURL StorageUtils.jpeg2MB;
                       UploadChatPhoto StorageUtils.jpeg2MB "default"
                         "anonymous";
                       OnPhotoSelected (url StorageUtils.photoResult)
                         (path StorageUtils.photoResult)] |}.
Proof.
  split; [reflexivity|].
  exact (successful_upload_resets_dialog StorageUtils.validate
           StorageUtils.classify "default" "anonymous" StorageUtils.jpeg2MB
           (Some "data:image/jpeg;base64,/9j/4AAQ") [0%Q; 40%Q; 100%Q]
           StorageUtils.photoResult eq_refl).
Defined.

(** X4, with the network error of the specification's scenario. *)
Lemma failed_upload_can_be_retried_witness :
  isValid (StorageUtils.validate StorageUtils.jpeg2MB) = true
  /\ run_sample mounted
       [PickFile (Some StorageUtils.jpeg2MB); ClickSendPhoto;
        UploadSettled (Rejected StorageUtils.networkError);
        ClickSendPhoto; UploadSettled (Fulfilled StorageUtils.photoResult)]
     = Some {| ui := initial; uploads := 0; reads := 1;
               log := [ReadAsDataURL StorageUtils.jpeg2MB;
                       UploadChatPhoto StorageUtils.jpeg2MB "default"
                         "anonymous";
                       ConsoleError "Error uploading photo:"
                         StorageUtils.networkError;
                       UploadChatPhoto StorageUtils.jpeg2MB "default"
                         "anonymous";
                       OnPhotoSelected (url StorageUtils.photoResult)
                         (path StorageUtils.photoResult)] |}.
Proof.
  split; [reflexivity|].
  exact (proj2 (failed_upload_can_be_retried StorageUtils.validate
                  StorageUtils.classify "default" "anonymous"
                  StorageUtils.jpeg2MB StorageUtils.networkError
                  StorageUtils.photoResult eq_refl)).
Defined.

(** X5, at the dialog with an upload in flight. *)
Lemma close_does_not_stop_the_upload_witness :
  exists w w',
    run_sample mounted
      [PickFile (Some StorageUtils.jpeg2MB); ClickSendPhoto] = Some w
    /\ uploads w = 1
    /\ run_sample w
         [ClickClose; UploadSettled (Fulfilled StorageUtils.photoResult)]
       = Some w'
    /\ log w' = [ReadAsDataURL StorageUtils.jpeg2MB;
                 UploadChatPhoto StorageUtils.jpeg2MB "default" "anonymous";
                 OnCancel;
                 OnPhotoSelected (url StorageUtils.photoResult)
                   (path StorageUtils.photoResult)].
Proof.
  exists StorageUtils.uploadingJpeg. eexists.
  split; [exact sample_uploading|].
  split; [reflexivity|].
  split; [exact (close_does_not_stop_the_upload StorageUtils.validate
                   StorageUtils.classify "default" "anonymous"
                   StorageUtils.uploadingJpeg 0
                   StorageUtils.photoResult eq_refl)|].
  reflexivity.
Defined.

(** X6, at the dialog with an upload in flight and a PNG picked next. *)
Lemma late_success_drops_new_selection_witness :
  exists w w',
    run_sample mounted
      [PickFile (Some StorageUtils.jpeg2MB); ClickSendPhoto] = Some w
    /\ selectedFile (ui w) = Some StorageUtils.jpeg2MB
    /\ uploads w = 1
    /\ isValid (StorageUtils.validate StorageUtils.png1MB) = true
    /\ run_sample w
         [ClickRemove; PickFile (Some StorageUtils.png1MB);
          UploadSettled (Fulfilled StorageUtils.photoResult)] = Some w'
    /\ selectedFile (ui w') = None
    /\ count is_upload (log w') = 1.
Proof.
  exists StorageUtils.uploadingJpeg. eexists.
  split; [exact sample_uploading|].
  do 3 (split; [reflexivity|]).
  split; [exact (late_success_drops_new_selection StorageUtils.validate
                   StorageUtils.classify "default" "anonymous"
                   StorageUtils.uploadingJpeg 0
                   StorageUtils.jpeg2MB StorageUtils.png1MB
                   StorageUtils.photoResult eq_refl eq_refl eq_refl)|].
  split; reflexivity.
Defined.

(** X7, at a dialog whose upload of the JPEG fails with the network
    error. *)
Lemma upload_error_hidden_until_discard_witness :
  exists s1 s2,
    exec (handleSendPhoto_settled StorageUtils.classify
            (Rejected StorageUtils.networkError))
      {| selectedFile := Some StorageUtils.jpeg2MB; previewUrl := "";
         isUploading := true; uploadProgress := 40%Q; error := "" |}
      = (s1, [ConsoleError "Error uploading photo:"
                StorageUtils.networkError])
    /\ errorBox s1 = None
    /\ exec discardFile s1 = (s2, [])
    /\ errorBox s2 = Some (StorageUtils.messageOf StorageUtils.Network).
Proof.
  destruct (upload_error_hidden_until_discard StorageUtils.classify
              {| selectedFile := Some StorageUtils.jpeg2MB; previewUrl := "";
                 isUploading := true; uploadProgress := 40%Q; error := "" |}
              StorageUtils.jpeg2MB StorageUtils.networkError eq_refl)
    as (s1 & s2 & H1 & _ & H2 & _ & H3 & H4).
  exists s1, s2. by repeat split.
Defined.

(** X8, with the JPEG picked and removed and the PNG picked next. *)
Lemma stale_preview_shown_for_next_file_witness :
  isValid (StorageUtils.validate StorageUtils.jpeg2MB) = true
  /\ isValid (StorageUtils.validate StorageUtils.png1MB) = true
  /\ exists w,
       run_sample mounted
         [PickFile (Some StorageUtils.jpeg2MB); ClickRemove;
          ReaderLoaded (Some "data:image/jpeg;base64,/9j/4AAQ");
          PickFile (Some StorageUtils.png1MB)] = Some w
       /\ selectedFile (ui w) = Some StorageUtils.png1MB
       /\ previewImage (ui w) = Some "data:image/jpeg;base64,/9j/4AAQ".
Proof.
  do 2 (split; [reflexivity|]).
  destruct (stale_preview_shown_for_next_file StorageUtils.validate
              StorageUtils.classify "default" "anonymous"
              StorageUtils.jpeg2MB StorageUtils.png1MB
              "data:image/jpeg;base64,/9j/4AAQ" eq_refl eq_refl)
    as (w & Hrun & Hsel & Hprev & _); [discriminate|].
  exists w. by repeat split.
Defined.

(** X9, at the dialog with an upload in flight. *)
Lemma remove_is_not_disabled_while_uploading_witness :
  exists w w',
    run_sample mounted
      [PickFile (Some StorageUtils.jpeg2MB); ClickSendPhoto] = Some w
    /\ isUploading (ui w) = true
    /\ step_sample w ClickChangePhoto = Some w
    /\ step_sample w ClickRemove = Some w'
    /\ selectedFile (ui w') = None
    /\ uploads w' = 1.
Proof.
  exists StorageUtils.uploadingJpeg.
  destruct (remove_is_not_disabled_while_uploading StorageUtils.validate
              StorageUtils.classify "default" "anonymous"
              StorageUtils.uploadingJpeg
              StorageUtils.jpeg2MB eq_refl eq_refl)
    as (Hchange & w' & Hremove & Hsel & _ & _ & Hu & _).
  exists w'. split; [exact sample_uploading|].
  by repeat split.
Defined.

End PhotoSharingRuns.

(** * Further properties of the profile image binding *)

Module ProfilePageRuns.
Import JS ProfilePage ProfileFixtures.
Import ProfilePageSpec.

(** Membership in an explicit list of effects. *)
Ltac in_effects := repeat first [apply list_elem_of_here | apply list_elem_of_further].
Ltac not_in_effects :=
  let H := fresh in
  intros H;
  repeat (apply elem_of_cons in H as [H|H]; [discriminate H|]);
  by apply elem_of_nil in H.

Lemma updateDoc_error_None env docs id :
  updateDoc_error env docs id = None ->
  write_refused env = None /\ exists d, docs !! id = Some d.
Proof.
  unfold updateDoc_error. destruct (write_refused env); [done|].
  destruct (docs !! id) as [d|]; [|done]. intros _. split; [done|by exists d].
Qed.

(** X10.  When the upload itself fails, no document write is attempted:
    the stored records and the shown image are as before, the error is
    logged and answered with the alert, and the overlay is dismissed. *)
Theorem upload_failure_writes_nothing
    (env : Env) (file : File) (user : User) (w : World) (e : Thrown) :
  upload_settles env = Rejected e ->
  exists w' es,
    handleImageChange env (Some file) (Some user) w = (inr tt, w', es)
    /\ es = [UploadProfileImage file (uid user);
             ConsoleError "Error uploading profile image:" e;
             Alert "Failed to upload image. Please try again."]
    /\ writes es = []
    /\ users w' = users w
    /\ profileImage (ui w') = profileImage (ui w)
    /\ uploadingImage (ui w') = false
    /\ uploadProgress (ui w') = 0%Q.
Proof.
  intros Hup. do 2 eexists.
  split; [by apply handleImageChange_upload_fails|]. by repeat split.
Qed.

(** X11.  With a file and a user the handler never throws and always ends
    with the overlay dismissed and every other user's record untouched.
    Either the upload and the write both succeeded, and then the success
    line is logged and no alert is shown; or something failed, and then the
    one fixed alert is shown, nothing is logged as success and the store is
    unchanged. *)
Theorem handleImageChange_outcomes
    (env : Env) (file : File) (user : User) (w : World) :
  exists w' es,
    handleImageChange env (Some file) (Some user) w = (inr tt, w', es)
    /\ uploadingImage (ui w') = false
    /\ uploadProgress (ui w') = 0%Q
    /\ (forall id, id <> uid user -> users w' !! id = users w !! id)
    /\ ((exists result,
           upload_settles env = Fulfilled result
           /\ updateDoc_error env (users w) (uid user) = None
           /\ ConsoleLog "Profile image uploaded successfully!" ∈ es
           /\ (forall msg, Alert msg ∉ es))
        \/ (Alert "Failed to upload image. Please try again." ∈ es
            /\ (ConsoleLog "Profile image uploaded successfully!" ∉ es)
            /\ users w' = users w)).
Proof.
  destruct (upload_settles env) as [result|e] eqn:Hup.
  - destruct (updateDoc_error env (users w) (uid user)) as [e|] eqn:Hwr.
    + do 2 eexists. split; [by apply handleImageChange_write_fails|].
      cbn [ui users uploadingImage uploadProgress].
      do 3 (split; [done|]). right.
      split; [in_effects|]. split; [not_in_effects|done].
    + destruct (updateDoc_error_None _ _ _ Hwr) as [_ [d Hd]].
      do 2 eexists. split; [by eapply handleImageChange_written|].
      cbn [ui users uploadingImage uploadProgress].
      do 2 (split; [done|]).
      split; [intros id Hid; by rewrite lookup_insert_ne|].
      left. exists result. do 2 (split; [done|]).
      split; [in_effects|]. intros msg. not_in_effects.
  - do 2 eexists. split; [by apply handleImageChange_upload_fails|].
    cbn [ui users uploadingImage uploadProgress].
    do 3 (split; [done|]). right.
    split; [in_effects|]. split; [not_in_effects|done].
Qed.

(** X12.  For a user without a profile document a successful upload still
    ends in the alert: [updateDoc] rejects with not-found, no record is
    created, and yet the page shows the uploaded image. *)
Theorem missing_profile_document
    (env : Env) (file : File) (user : User) (w : World)
    (result : UploadResult) :
  upload_settles env = Fulfilled result ->
  write_refused env = None ->
  users w !! uid user = None ->
  exists w',
    handleImageChange env (Some file) (Some user) w =
    (inr tt, w',
     [UploadProfileImage file (uid user);
      UpdateDoc "users" (uid user) (imageFields result (clock env));
      ConsoleError "Error uploading profile image:" not_found;
      Alert "Failed to upload image. Please try again."])
    /\ users w' !! uid user = None
    /\ users w' = users w
    /\ profileImage (ui w') = Some (url result).
Proof.
  intros Hup Hwr Hdoc. eexists.
  split; [apply handleImageChange_write_fails; [done|]|by repeat split].
  unfold updateDoc_error. by rewrite Hwr, Hdoc.
Qed.

(** X13.  Two successful changes in a row: the record ends with the URL,
    path and timestamp of the second, keeps every field neither of them
    writes, and the page shows the second image. *)
Theorem second_upload_replaces_first
    (env1 env2 : Env) (file1 file2 : File) (user : User) (w : World)
    (r1 r2 : UploadResult) (d : Doc) :
  upload_settles env1 = Fulfilled r1 ->
  upload_settles env2 = Fulfilled r2 ->
  write_refused env1 = None ->
  write_refused env2 = None ->
  users w !! uid user = Some d ->
  exists w1 es1 w2 es2 d2,
    handleImageChange env1 (Some file1) (Some user) w = (inr tt, w1, es1)
    /\ handleImageChange env2 (Some file2) (Some user) w1 = (inr tt, w2, es2)
    /\ profileImage (ui w2) = Some (url r2)
    /\ users w2 !! uid user = Some d2
    /\ d2 !! "profileImage" = Some (VString (url r2))
    /\ d2 !! "profileImagePath" = Some (VString (path r2))
    /\ d2 !! "updatedAt" = Some (VDate (clock env2))
    /\ (forall k, k ∉ ["profileImage"; "profileImagePath"; "updatedAt"] ->
          d2 !! k = d !! k).
Proof.
  intros Hup1 Hup2 Hwr1 Hwr2 Hd.
  assert (He1 : updateDoc_error env1 (users w) (uid user) = None)
    by (unfold updateDoc_error; by rewrite Hwr1, Hd).
  pose proof (handleImageChange_written env1 file1 user w r1 d Hup1 He1 Hd)
    as Hrun1.
  set (w1 := {| ui := {| profileImage := Some (url r1);
                         uploadingImage := false; uploadProgress := 0%Q |};
                users := <[uid user :=
                             list_to_map (imageFields r1 (clock env1)) ∪ d]>
                           (users w) |}) in *.
  set (d1 := list_to_map (imageFields r1 (clock env1)) ∪ d) in *.
  assert (Hd1 : users w1 !! uid user = Some d1) by apply lookup_insert_eq.
  assert (He2 : updateDoc_error env2 (users w1) (uid user) = None)
    by (unfold updateDoc_error; by rewrite Hwr2, Hd1).
  pose proof (handleImageChange_written env2 file2 user w1 r2 d1 Hup2 He2 Hd1)
    as Hrun2.
  do 5 eexists. split; [exact Hrun1|]. split; [exact Hrun2|].
  cbn [ui users profileImage]. split; [done|].
  split; [apply lookup_insert_eq|].
  unfold d1, imageFields. cbn [list_to_map foldr uncurry fst snd].
  repeat split.
  - apply lookup_union_Some_l. by simplify_map_eq.
  - apply lookup_union_Some_l. by simplify_map_eq.
  - apply lookup_union_Some_l. by simplify_map_eq.
  - intros k Hk. rewrite !not_elem_of_cons in Hk.
    destruct Hk as (H1 & H2 & H3 & _).
    rewrite lookup_union_r
      by (by rewrite !lookup_insert_ne, lookup_empty).
    rewrite lookup_union_r
      by (by rewrite !lookup_insert_ne, lookup_empty).
    done.
Qed.

(** X10, at a run whose upload is rejected. *)
Lemma upload_failure_writes_nothing_witness :
  upload_settles uploadFails = Rejected storageDown
  /\ exists w' es,
       handleImageChange uploadFails (Some avatar) (Some alice) page
         = (inr tt, w', es)
       /\ writes es = []
       /\ users w' = users page
       /\ profileImage (ui w') = Some oldImage.
Proof.
  split; [reflexivity|].
  destruct (upload_failure_writes_nothing uploadFails avatar alice page
              storageDown eq_refl)
    as (w' & es & Hrun & _ & Hwrites & Hdocs & Himg & _).
  exists w', es. by repeat split.
Defined.

(** X11, at a run where the store refuses the write. *)
Lemma handleImageChange_outcomes_witness :
  exists w' es,
    handleImageChange writeRefused (Some avatar) (Some alice) page
      = (inr tt, w', es)
    /\ uploadingImage (ui w') = false
    /\ uploadProgress (ui w') = 0%Q.
Proof.
  destruct (handleImageChange_outcomes writeRefused avatar alice page)
    as (w' & es & Hrun & Hoff & Hzero & _).
  by exists w', es.
Defined.

(** X12, at the page of a user without a profile document. *)
Lemma missing_profile_document_witness :
  upload_settles allGood = Fulfilled avatarResult
  /\ write_refused allGood = None
  /\ users pageWithoutDoc !! uid alice = None
  /\ exists w',
       handleImageChange allGood (Some avatar) (Some alice) pageWithoutDoc =
       (inr tt, w',
        [UploadProfileImage avatar (uid alice);
         UpdateDoc "users" (uid alice)
           (imageFields avatarResult (clock allGood));
         ConsoleError "Error uploading profile image:" not_found;
         Alert "Failed to upload image. Please try again."])
       /\ users w' !! uid alice = None
       /\ profileImage (ui w') = Some (url avatarResult).
Proof.
  split; [reflexivity|]. split; [reflexivity|].
  assert (Hnone : users pageWithoutDoc !! uid alice = None)
    by apply lookup_empty.
  split; [exact Hnone|].
  destruct (missing_profile_document allGood avatar alice pageWithoutDoc
              avatarResult eq_refl eq_refl Hnone)
    as (w' & Hrun & Hdoc & _ & Himg).
  exists w'. by repeat split.
Defined.

(** X13, at two changes of alice's picture. *)
Lemma second_upload_replaces_first_witness :
  users page !! uid alice = Some aliceDoc
  /\ exists w1 es1 w2 es2 d2,
       handleImageChange allGood (Some avatar) (Some alice) page
         = (inr tt, w1, es1)
       /\ handleImageChange allGoodLater (Some avatar2) (Some alice) w1
          = (inr tt, w2, es2)
       /\ profileImage (ui w2) = Some (url avatarResult2)
       /\ users w2 !! uid alice = Some d2
       /\ d2 !! "profileImage" = Some (VString (url avatarResult2))
       /\ d2 !! "updatedAt" = Some (VDate 1700000060000).
Proof.
  assert (Hdoc : users page !! uid alice = Some aliceDoc)
    by apply lookup_singleton_eq.
  split; [exact Hdoc|].
  destruct (second_upload_replaces_first allGood allGoodLater avatar avatar2
              alice page avatarResult avatarResult2 aliceDoc
              eq_refl eq_refl eq_refl eq_refl Hdoc)
    as (w1 & es1 & w2 & es2 & d2 & H1 & H2 & Himg & Hd2 & Hurl & _ & Hat & _).
  exists w1, es1, w2, es2, d2. by repeat split.
Defined.

End ProfilePageRuns.

(** * Properties of the rest of the profile page *)

Module ProfileScreenSpec.
Import ProfileScreen.

Ltac run_page :=
  unfold onSnapshot_callback, handleRevealLike, handleShowLikes, closeLikes,
    imageChange, setName, setAge, setLocation, setProfession, setBio,
    setInterests, setProfileViews, setLoading, setShowLikesModal,
    setLikesData, setProfileImage, modifyPage, mbind, mret, M_bind, M_ret;
  cbn [fst snd page world name age location profession bio interests
       profileViews loading showLikesModal likesData].

(** *** The snapshot listener *)

(** What a snapshot of an existing document leaves behind. *)
Lemma onSnapshot_exists randomFloor data s :
  (onSnapshot_callback randomFloor (Some data) s).2 =
  {| page :=
       {| name := JS.or_else (d_username data)
                    (JS.or_else (d_name data) "Love");
          age := number_or (d_age data) 25;
          location := JS.or_else (d_location data) "Beverly Hills, CA";
          profession := JS.or_else (d_profession data) "Model & Influencer";
          bio := JS.or_else (d_bio data) defaultBio;
          interests := array_or (d_interests data) defaultInterests;
          profileViews :=
            number_or (d_profileViews data) (randomFloor + 100);
          loading := false;
          showLikesModal := showLikesModal (page s);
          likesData := likesData (page s) |};
     world :=
       {| ProfilePage.ui :=
            {| ProfilePage.profileImage :=
                 match d_profileImage data with
                 | Some image =>
                     if JS.truthy image then Some image
                     else ProfilePage.profileImage
                            (ProfilePage.ui (world s))
                 | None =>
                     ProfilePage.profileImage (ProfilePage.ui (world s))
                 end;
               ProfilePage.uploadingImage :=
                 ProfilePage.uploadingImage (ProfilePage.ui (world s));
               ProfilePage.uploadProgress :=
                 ProfilePage.uploadProgress (ProfilePage.ui (world s)) |};
          ProfilePage.users := ProfilePage.users (world s) |} |}.
Proof.
  destruct s as [p [[img up pr] docs]]. run_page.
  destruct (d_profileImage data) as [image|]; [destruct (JS.truthy image)|];
    reflexivity.
Qed.

Lemma onSnapshot_missing randomFloor s :
  (onSnapshot_callback randomFloor None s).2 =
  {| page :=
       {| name := name (page s); age := age (page s);
          location := location (page s); profession := profession (page s);
          bio := bio (page s); interests := interests (page s);
          profileViews := profileViews (page s); loading := false;
          showLikesModal := showLikesModal (page s);
          likesData := likesData (page s) |};
     world := world s |}.
Proof. by run_page. Qed.

Lemma or_else_missing o d : missing o -> JS.or_else o d = d.
Proof. by intros [-> | ->]. Qed.

Lemma number_or_missing o d : missing_number o -> number_or o d = d.
Proof. by intros [-> | ->]. Qed.

Section Page.

Variable isPremium : bool.
Variable user : option ProfilePage.User.

Abbreviation step := (step isPremium user).
Abbreviation run := (run isPremium user).

Lemma page_run_app s evs1 evs2 : run s (evs1 ++ evs2) = run (run s evs1) evs2.
Proof. apply foldl_app. Qed.

Lemma page_run_cons s ev evs : run s (ev :: evs) = run (step s ev) evs.
Proof. reflexivity. Qed.

Lemma loading_step s ev :
  loading (page (step s ev)) =
  if is_snapshot ev then false else loading (page s).
Proof.
  destruct ev as [rf [data|]|likeId| | |env file]; cbn [is_snapshot];
    unfold ProfileScreen.step.
  - by rewrite onSnapshot_exists.
  - by rewrite onSnapshot_missing.
  - by run_page.
  - unfold handleShowLikes. destruct isPremium; by run_page.
  - by run_page.
  - by run_page.
Qed.

Lemma loading_stays_off evs : forall s,
  loading (page s) = false -> loading (page (run s evs)) = false.
Proof.
  induction evs as [|ev evs IH]; intros s Hs; [done|].
  rewrite page_run_cons. apply IH. rewrite loading_step.
  by destruct (is_snapshot ev).
Qed.

Lemma loading_stays_on evs : forall s,
  forallb (fun ev => negb (is_snapshot ev)) evs = true ->
  loading (page (run s evs)) = loading (page s).
Proof.
  induction evs as [|ev evs IH]; intros s Hevs; [done|].
  cbn [forallb] in Hevs. apply andb_prop in Hevs as [Hev Hevs].
  rewrite page_run_cons, (IH _ Hevs), loading_step.
  by destruct (is_snapshot ev).
Qed.

End Page.

(** X14.  A signed-in user sees the spinner exactly until the first
    snapshot arrives, whether or not the document exists; from then on the
    profile view is rendered after every event. *)
Theorem spinner_until_first_snapshot
    (isPremium : bool) (u : ProfilePage.User)
    (docs : ProfilePage.Collection) (before after : list Event)
    (randomFloor : Z) (docSnap : option ProfileData) :
  forallb (fun ev => negb (is_snapshot ev)) before = true ->
  render (Some u) (run isPremium (Some u) (mounted docs) before)
    = LoadingSpinner
  /\ render (Some u)
       (run isPremium (Some u) (mounted docs)
          (before ++ Snapshot randomFloor docSnap :: after))
     = ProfileView.
Proof.
  intros Hbefore. unfold render. split.
  - by rewrite loading_stays_on.
  - rewrite page_run_app, page_run_cons.
    rewrite loading_stays_off; [done|].
    by rewrite loading_step.
Qed.

(** X15.  A snapshot can replace the shown image but never remove it: a
    non-empty [profileImage] in the document is shown, and a document
    without one, or with an empty one, leaves the image that was shown. *)
Theorem snapshot_never_clears_image
    (randomFloor : Z) (data : ProfileData) (s : Screen) :
  let s' := (onSnapshot_callback randomFloor (Some data) s).2 in
  (forall image, d_profileImage data = Some image -> image <> "" ->
     ProfilePage.profileImage (ProfilePage.ui (world s')) = Some image)
  /\ (missing (d_profileImage data) ->
      ProfilePage.profileImage (ProfilePage.ui (world s'))
      = ProfilePage.profileImage (ProfilePage.ui (world s))).
Proof.
  cbn zeta. rewrite onSnapshot_exists.
  cbn [world ProfilePage.ui ProfilePage.profileImage]. split.
  - intros image -> Hne. apply PhotoSharingSpec.truthy_nonempty in Hne.
    by rewrite Hne.
  - by intros [-> | ->].
Qed.

(** X16.  The text and number fields do not persist across snapshots: what
    the page shows after one depends on that document alone, and a field the
    document lacks (or holds as an empty string or as 0) goes back to the
    built-in default, the view count to the random fallback; the likes and
    the modal are not touched. *)
Theorem snapshot_resets_missing_fields
    (randomFloor : Z) (data : ProfileData) (s1 s2 : Screen) :
  let p1 := page (onSnapshot_callback randomFloor (Some data) s1).2 in
  let p2 := page (onSnapshot_callback randomFloor (Some data) s2).2 in
  (name p1 = name p2 /\ age p1 = age p2 /\ location p1 = location p2
   /\ profession p1 = profession p2 /\ bio p1 = bio p2
   /\ interests p1 = interests p2 /\ profileViews p1 = profileViews p2)
  /\ likesData p1 = likesData (page s1)
  /\ showLikesModal p1 = showLikesModal (page s1)
  /\ (missing (d_username data) -> missing (d_name data) ->
      name p1 = "Love")
  /\ (missing_number (d_age data) -> age p1 = 25%Z)
  /\ (missing (d_location data) -> location p1 = "Beverly Hills, CA")
  /\ (missing (d_profession data) -> profession p1 = "Model & Influencer")
  /\ (missing (d_bio data) -> bio p1 = defaultBio)
  /\ (d_interests data = None -> interests p1 = defaultInterests)
  /\ (missing_number (d_profileViews data) ->
      profileViews p1 = (randomFloor + 100)%Z).
Proof.
  cbn zeta. rewrite !onSnapshot_exists.
  cbn [page name age location profession bio interests profileViews
       likesData showLikesModal].
  split; [by repeat split|]. do 2 (split; [done|]).
  split; [intros Hu Hn; by rewrite (or_else_missing _ _ Hu),
                             (or_else_missing _ _ Hn)|].
  split; [apply number_or_missing|].
  do 3 (split; [apply or_else_missing|]).
  split; [by intros ->|apply number_or_missing].
Qed.

(** *** Snapshots and image changes *)

Lemma imageChange_world isPremium user s env file :
  world (step isPremium user s (ImageChange env file)) =
  (ProfilePage.handleImageChange env file user (world s)).1.2.
Proof. reflexivity. Qed.

Lemma snapshot_image isPremium user s randomFloor data :
  ProfilePage.profileImage
    (ProfilePage.ui
       (world (step isPremium user s (Snapshot randomFloor (Some data))))) =
  match d_profileImage data with
  | Some image =>
      if JS.truthy image then Some image
      else ProfilePage.profileImage (ProfilePage.ui (world s))
  | None => ProfilePage.profileImage (ProfilePage.ui (world s))
  end.
Proof. unfold step. by rewrite onSnapshot_exists. Qed.

(** X17.  After an upload that succeeded and a write that failed, the page
    shows the uploaded image only until the next snapshot of the user's
    document: that snapshot puts the stored image back, if the document has
    a non-empty one. *)
Theorem snapshot_undoes_unsaved_image
    (isPremium : bool) (u : ProfilePage.User) (s : Screen)
    (env : ProfilePage.Env) (file : JS.File) (result : JS.UploadResult)
    (e : JS.Thrown) (randomFloor : Z) (data : ProfileData) :
  ProfilePage.upload_settles env = JS.Fulfilled result ->
  ProfilePage.updateDoc_error env (ProfilePage.users (world s))
    (ProfilePage.uid u) = Some e ->
  d_profileImage data
    = storedImage (ProfilePage.users (world s)) (ProfilePage.uid u) ->
  let s1 := step isPremium (Some u) s (ImageChange env (Some file)) in
  let s2 := step isPremium (Some u) s1 (Snapshot randomFloor (Some data)) in
  ProfilePage.profileImage (ProfilePage.ui (world s1))
    = Some (JS.url result)
  /\ ProfilePage.users (world s1) = ProfilePage.users (world s)
  /\ ProfilePage.profileImage (ProfilePage.ui (world s2)) =
     match storedImage (ProfilePage.users (world s)) (ProfilePage.uid u) with
     | Some image =>
         if JS.truthy image then Some image else Some (JS.url result)
     | None => Some (JS.url result)
     end.
Proof.
  intros Hup Hwr Hdata. cbn zeta.
  rewrite snapshot_image, imageChange_world.
  rewrite (ProfilePageSpec.handleImageChange_write_fails env file u (world s)
             result e Hup Hwr).
  cbn [fst snd ProfilePage.ui ProfilePage.users ProfilePage.profileImage].
  by rewrite Hdata.
Qed.

(** X18.  After a change that was saved, the image read back from the
    user's document is the uploaded URL, so a snapshot of that document
    leaves the shown image as it is. *)
Theorem saved_image_survives_snapshot
    (isPremium : bool) (u : ProfilePage.User) (s : Screen)
    (env : ProfilePage.Env) (file : JS.File) (result : JS.UploadResult)
    (randomFloor : Z) (data : ProfileData) :
  ProfilePage.upload_settles env = JS.Fulfilled result ->
  ProfilePage.updateDoc_error env (ProfilePage.users (world s))
    (ProfilePage.uid u) = None ->
  let s1 := step isPremium (Some u) s (ImageChange env (Some file)) in
  storedImage (ProfilePage.users (world s1)) (ProfilePage.uid u)
    = Some (JS.url result)
  /\ (d_profileImage data
        = storedImage (ProfilePage.users (world s1)) (ProfilePage.uid u) ->
      ProfilePage.profileImage
        (ProfilePage.ui
           (world (step isPremium (Some u) s1
                     (Snapshot randomFloor (Some data)))))
      = Some (JS.url result)).
Proof.
  intros Hup Hwr. cbn zeta.
  destruct (ProfilePageRuns.updateDoc_error_None _ _ _ Hwr) as [_ [d Hd]].
  assert (Hstored :
    storedImage
      (ProfilePage.users
         (world (step isPremium (Some u) s (ImageChange env (Some file)))))
      (ProfilePage.uid u) = Some (JS.url result)).
  { rewrite imageChange_world.
    rewrite (ProfilePageSpec.handleImageChange_written env file u (world s)
               result d Hup Hwr Hd).
    cbn [fst snd ProfilePage.users]. unfold storedImage.
    rewrite lookup_insert_eq.
    unfold ProfilePage.imageFields.
    cbn [list_to_map foldr uncurry fst snd].
    rewrite (lookup_union_Some_l _ _ _
               (ProfilePage.VString (JS.url result)));
      [done|by simplify_map_eq]. }
  split; [exact Hstored|].
  intros Hdata. rewrite snapshot_image, Hdata, Hstored.
  destruct (JS.truthy (JS.url result)); [done|].
  rewrite imageChange_world.
  by rewrite (ProfilePageSpec.handleImageChange_written env file u (world s)
                result d Hup Hwr Hd).
Qed.

(** *** Likes *)

Lemma reveal_if_twice b1 b2 like :
  reveal_if b2 (reveal_if b1 like) = reveal_if (b1 || b2) like.
Proof. by destruct b1, b2, like. Qed.

Lemma reveal_if_id b like : Like.id (reveal_if b like) = Like.id like.
Proof. by destruct b. Qed.

Lemma likes_revealLike likeId s :
  likesData (page (handleRevealLike likeId s).2) =
  map (fun like => reveal_if (String.eqb (Like.id like) likeId) like)
    (likesData (page s)).
Proof. by run_page. Qed.

Lemma likes_showLikes isPremium s :
  likesData (page (handleShowLikes isPremium s).2) =
  map (reveal_if isPremium) (likesData (page s)).
Proof.
  unfold handleShowLikes. destruct isPremium; run_page; [done|].
  symmetry. apply map_id.
Qed.

(** X19.  [handleRevealLike] with an id that no like carries changes
    nothing; revealing the same id twice is revealing it once; and the order
    in which two ids are revealed does not matter. *)
Theorem handleRevealLike_laws (i j : string) (s : Screen) :
  (Forall (fun like => Like.id like <> i) (likesData (page s)) ->
   likesData (page (handleRevealLike i s).2) = likesData (page s))
  /\ (handleRevealLike i (handleRevealLike i s).2).2
     = (handleRevealLike i s).2
  /\ (handleRevealLike j (handleRevealLike i s).2).2
     = (handleRevealLike i (handleRevealLike j s).2).2.
Proof.
  split; [|split].
  - intros Hno. rewrite likes_revealLike.
    induction Hno as [|like likes Hlike _ IH]; [done|].
    cbn [map]. rewrite IH. apply String.eqb_neq in Hlike.
    by rewrite Hlike.
  - run_page. do 2 f_equal. rewrite map_map. apply map_ext.
    intros like.
    destruct (String.eqb (Like.id like) i) eqn:E; cbn; by rewrite E.
  - run_page. do 2 f_equal. rewrite !map_map. apply map_ext.
    intros like.
    destruct (String.eqb (Like.id like) i) eqn:Ei,
             (String.eqb (Like.id like) j) eqn:Ej;
      cbn; by rewrite ?Ei, ?Ej.
Qed.

(** X20.  Opening the likes always shows the modal.  For a premium user it
    reveals every like; for anyone else it reveals none and the list is
    exactly what it was.  The number of likes never changes. *)
Theorem handleShowLikes_reveals_for_premium_only
    (isPremium : bool) (s : Screen) :
  let s' := (handleShowLikes isPremium s).2 in
  showLikesModal (page s') = true
  /\ length (likesData (page s')) = length (likesData (page s))
  /\ map Like.id (likesData (page s')) = map Like.id (likesData (page s))
  /\ (isPremium = true ->
      Forall (fun like => Like.isRevealed like = true) (likesData (page s')))
  /\ (isPremium = false -> likesData (page s') = likesData (page s)).
Proof.
  cbn zeta. split.
  { unfold handleShowLikes. destruct isPremium; by run_page. }
  rewrite likes_showLikes. split; [apply length_map|].
  split.
  { rewrite map_map. apply map_ext. intros like. apply reveal_if_id. }
  split.
  - intros ->. apply Forall_forall. intros like Hin.
    apply list_elem_of_In, in_map_iff in Hin as (like0 & <- & _). done.
  - intros ->. apply map_id.
Qed.

Section Likes.

Variable isPremium : bool.
Variable user : option ProfilePage.User.

Lemma revealed_by_cons ev evs like :
  revealed_by isPremium (ev :: evs) like =
  revealed_by isPremium [ev] like || revealed_by isPremium evs like.
Proof.
  unfold revealed_by.
  assert (Hs : shows_likes (ev :: evs)
               = shows_likes [ev] || shows_likes evs)
    by (by destruct ev).
  assert (Hr : existsb (String.eqb (Like.id like)) (reveal_ids (ev :: evs))
               = existsb (String.eqb (Like.id like)) (reveal_ids [ev])
                 || existsb (String.eqb (Like.id like)) (reveal_ids evs)).
  { destruct ev as [| i | | |]; try reflexivity.
    change (reveal_ids (RevealLike i :: evs)) with (i :: reveal_ids evs).
    change (reveal_ids [RevealLike i]) with [i].
    cbn [existsb]. by rewrite orb_false_r. }
  rewrite Hs, Hr.
  destruct isPremium, (shows_likes [ev]), (shows_likes evs),
    (existsb (String.eqb (Like.id like)) (reveal_ids [ev])),
    (existsb (String.eqb (Like.id like)) (reveal_ids evs)); done.
Qed.

Lemma revealed_by_reveal_if evs b like :
  revealed_by isPremium evs (reveal_if b like)
  = revealed_by isPremium evs like.
Proof. unfold revealed_by. by rewrite reveal_if_id. Qed.

Lemma likes_step s ev :
  likesData (page (step isPremium user s ev)) =
  map (fun like => reveal_if (revealed_by isPremium [ev] like) like)
    (likesData (page s)).
Proof.
  unfold step, revealed_by.
  destruct ev as [rf [data|]|likeId| | |env file];
    cbn [shows_likes reveal_ids existsb omap option_bind].
  - rewrite onSnapshot_exists. cbn [page likesData].
    rewrite andb_false_r. symmetry. apply map_id.
  - rewrite onSnapshot_missing. cbn [page likesData].
    rewrite andb_false_r. symmetry. apply map_id.
  - rewrite likes_revealLike. apply map_ext. intros like. cbn.
    by rewrite andb_false_r, !orb_false_r.
  - rewrite likes_showLikes. apply map_ext. intros like. cbn.
    by rewrite !orb_false_r, andb_true_r.
  - run_page. rewrite andb_false_r. symmetry. apply map_id.
  - run_page. rewrite andb_false_r. symmetry. apply map_id.
Qed.

Lemma likes_run evs : forall s,
  likesData (page (run isPremium user s evs)) =
  map (fun like => reveal_if (revealed_by isPremium evs like) like)
    (likesData (page s)).
Proof.
  induction evs as [|ev evs IH]; intros s.
  - transitivity (map (fun like : Like.t => like) (likesData (page s)));
      [symmetry; apply map_id|].
    apply map_ext. intros like. unfold revealed_by. by destruct isPremium.
  - rewrite page_run_cons, IH, likes_step, map_map. apply map_ext.
    intros like.
    by rewrite revealed_by_reveal_if, reveal_if_twice,
         (revealed_by_cons ev evs).
Qed.

(** X21.  Whatever happens on the page, a like ends up revealed exactly if
    it was revealed before, or its id was passed to [handleRevealLike], or
    the user is premium and opened the likes; no other field of any like
    changes, and no like is added, dropped or moved. *)
Theorem likes_after_any_events (s : Screen) (evs : list Event) :
  likesData (page (run isPremium user s evs)) =
  map (fun like => reveal_if (revealed_by isPremium evs like) like)
    (likesData (page s)).
Proof. apply likes_run. Qed.

Lemma revealed_map_reveal_if (c : Like.t -> bool) likes :
  revealed likes <= revealed (map (fun like => reveal_if (c like) like) likes).
Proof.
  unfold revealed. induction likes as [|like likes IH]; [done|].
  cbn [map List.filter].
  destruct (c like), (Like.isRevealed like) eqn:E; cbn [reveal_if];
    rewrite ?E; cbn; lia.
Qed.

(** X22.  Revealing is permanent: over any sequence of events the ids of
    the likes stay the same, in the same order, a like that is revealed
    stays revealed, and the number of revealed likes never goes down. *)
Theorem reveals_are_never_undone (s : Screen) (evs : list Event) :
  let likes := likesData (page s) in
  let likes' := likesData (page (run isPremium user s evs)) in
  map Like.id likes' = map Like.id likes
  /\ (forall i like like',
        likes !! i = Some like -> likes' !! i = Some like' ->
        Like.isRevealed like = true -> Like.isRevealed like' = true)
  /\ revealed likes <= revealed likes'.
Proof.
  cbn zeta. rewrite likes_run. split; [|split].
  - rewrite map_map. apply map_ext. intros like. apply reveal_if_id.
  - intros i like like' Hi Hi' Hrev.
    rewrite list_lookup_fmap, Hi in Hi'. cbn in Hi'.
    injection Hi' as <-.
    by destruct (revealed_by isPremium evs like).
  - apply revealed_map_reveal_if.
Qed.

End Likes.

Import ScreenFixtures.

(** X14, with a like revealed before the first snapshot and the likes
    opened after it. *)
Lemma spinner_until_first_snapshot_witness :
  render (Some ProfileFixtures.alice)
    (run false (Some ProfileFixtures.alice) aliceScreen [RevealLike "2"]) = LoadingSpinner
  /\ render (Some ProfileFixtures.alice)
       (run false (Some ProfileFixtures.alice) aliceScreen
          ([RevealLike "2"] ++ Snapshot 17 None :: [ShowLikes]))
     = ProfileView.
Proof.
  exact (spinner_until_first_snapshot false ProfileFixtures.alice (ProfilePage.users ProfileFixtures.page)
           [RevealLike "2"] [ShowLikes] 17 None eq_refl).
Defined.

(** X15, with a snapshot that carries an image and one that does not. *)
Lemma snapshot_never_clears_image_witness :
  ProfilePage.profileImage
    (ProfilePage.ui
       (world (onSnapshot_callback 17 (Some aliceDataSaved) aliceScreen).2))
    = Some (JS.url ProfileFixtures.avatarResult)
  /\ ProfilePage.profileImage
       (ProfilePage.ui
          (world (onSnapshot_callback 17 (Some blankData) aliceScreen).2))
     = Some defaultImage.
Proof.
  split.
  - apply (proj1 (snapshot_never_clears_image 17 aliceDataSaved aliceScreen)
             (JS.url ProfileFixtures.avatarResult) eq_refl).
    discriminate.
  - apply (proj2 (snapshot_never_clears_image 17 blankData aliceScreen)).
    left. reflexivity.
Defined.

(** X16, with a snapshot of an empty document. *)
Lemma snapshot_resets_missing_fields_witness :
  let p := page (onSnapshot_callback 17 (Some blankData) aliceScreen).2 in
  name p = "Love" /\ age p = 25%Z /\ bio p = defaultBio
  /\ interests p = defaultInterests /\ profileViews p = 117%Z.
Proof.
  destruct (snapshot_resets_missing_fields 17 blankData aliceScreen
              aliceScreen)
    as (_ & _ & _ & Hname & Hage & _ & _ & Hbio & Hint & Hviews).
  cbn zeta. split; [apply Hname; left; reflexivity|].
  split; [apply Hage; left; reflexivity|].
  split; [apply Hbio; left; reflexivity|].
  split; [apply Hint; reflexivity|].
  apply Hviews. left. reflexivity.
Defined.

(** X17, with the store refusing the write and a snapshot of the stored
    document afterwards. *)
Lemma snapshot_undoes_unsaved_image_witness :
  ProfilePage.upload_settles ProfileFixtures.writeRefused = JS.Fulfilled ProfileFixtures.avatarResult
  /\ ProfilePage.updateDoc_error ProfileFixtures.writeRefused
       (ProfilePage.users (world aliceScreen)) (ProfilePage.uid ProfileFixtures.alice)
     = Some ProfileFixtures.permissionDenied
  /\ d_profileImage aliceData
     = storedImage (ProfilePage.users (world aliceScreen))
         (ProfilePage.uid ProfileFixtures.alice)
  /\ ProfilePage.profileImage
       (ProfilePage.ui
          (world (step false (Some ProfileFixtures.alice) aliceScreen
                    (ImageChange ProfileFixtures.writeRefused (Some ProfileFixtures.avatar)))))
     = Some (JS.url ProfileFixtures.avatarResult)
  /\ ProfilePage.profileImage
       (ProfilePage.ui
          (world (step false (Some ProfileFixtures.alice)
                    (step false (Some ProfileFixtures.alice) aliceScreen
                       (ImageChange ProfileFixtures.writeRefused (Some ProfileFixtures.avatar)))
                    (Snapshot 17 (Some aliceData)))))
     = Some ProfileFixtures.oldImage.
Proof.
  assert (Hstored : storedImage (ProfilePage.users (world aliceScreen))
                      (ProfilePage.uid ProfileFixtures.alice) = Some ProfileFixtures.oldImage)
    by (vm_compute; reflexivity).
  split; [reflexivity|]. split; [reflexivity|].
  split; [by rewrite Hstored|].
  destruct (snapshot_undoes_unsaved_image false ProfileFixtures.alice aliceScreen
              ProfileFixtures.writeRefused ProfileFixtures.avatar ProfileFixtures.avatarResult ProfileFixtures.permissionDenied 17 aliceData
              eq_refl eq_refl)
    as (Hshown & _ & Hback); [by rewrite Hstored|].
  split; [exact Hshown|]. by rewrite Hback, Hstored.
Defined.

(** X18, with the write accepted and a snapshot of the updated document
    afterwards. *)
Lemma saved_image_survives_snapshot_witness :
  ProfilePage.upload_settles ProfileFixtures.allGood = JS.Fulfilled ProfileFixtures.avatarResult
  /\ ProfilePage.updateDoc_error ProfileFixtures.allGood
       (ProfilePage.users (world aliceScreen)) (ProfilePage.uid ProfileFixtures.alice)
     = None
  /\ storedImage
       (ProfilePage.users
          (world (step false (Some ProfileFixtures.alice) aliceScreen
                    (ImageChange ProfileFixtures.allGood (Some ProfileFixtures.avatar)))))
       (ProfilePage.uid ProfileFixtures.alice)
     = Some (JS.url ProfileFixtures.avatarResult)
  /\ ProfilePage.profileImage
       (ProfilePage.ui
          (world (step false (Some ProfileFixtures.alice)
                    (step false (Some ProfileFixtures.alice) aliceScreen
                       (ImageChange ProfileFixtures.allGood (Some ProfileFixtures.avatar)))
                    (Snapshot 17 (Some aliceDataSaved)))))
     = Some (JS.url ProfileFixtures.avatarResult).
Proof.
  assert (Hok : ProfilePage.updateDoc_error ProfileFixtures.allGood
                  (ProfilePage.users (world aliceScreen))
                  (ProfilePage.uid ProfileFixtures.alice) = None)
    by (vm_compute; reflexivity).
  split; [reflexivity|]. split; [exact Hok|].
  destruct (saved_image_survives_snapshot false ProfileFixtures.alice aliceScreen ProfileFixtures.allGood
              ProfileFixtures.avatar ProfileFixtures.avatarResult 17 aliceDataSaved eq_refl Hok)
    as (Hstored & Hkeep).
  split; [exact Hstored|]. apply Hkeep. by rewrite Hstored.
Defined.

(** X19, on the three likes of the page: an id nobody has, and the ids 1
    and 3. *)
Lemma handleRevealLike_laws_witness :
  Forall (fun like => Like.id like <> "7") (likesData (page aliceScreen))
  /\ likesData (page (handleRevealLike "7" aliceScreen).2)
     = likesData (page aliceScreen)
  /\ (handleRevealLike "3" (handleRevealLike "1" aliceScreen).2).2
     = (handleRevealLike "1" (handleRevealLike "3" aliceScreen).2).2.
Proof.
  assert (Hno : Forall (fun like => Like.id like <> "7")
                  (likesData (page aliceScreen)))
    by (repeat constructor; discriminate).
  split; [exact Hno|].
  destruct (handleRevealLike_laws "7" "7" aliceScreen) as (Hnoop & _ & _).
  split; [exact (Hnoop Hno)|].
  exact (proj2 (proj2 (handleRevealLike_laws "1" "3" aliceScreen))).
Defined.

(** X20, for a premium user and for a free user on the page as mounted. *)
Lemma handleShowLikes_reveals_for_premium_only_witness :
  Forall (fun like => Like.isRevealed like = true)
    (likesData (page (handleShowLikes true aliceScreen).2))
  /\ likesData (page (handleShowLikes false aliceScreen).2) = initialLikes
  /\ showLikesModal (page (handleShowLikes false aliceScreen).2) = true.
Proof.
  destruct (handleShowLikes_reveals_for_premium_only true aliceScreen)
    as (_ & _ & _ & Hall & _).
  destruct (handleShowLikes_reveals_for_premium_only false aliceScreen)
    as (Hmodal & _ & _ & _ & Hnone).
  split; [exact (Hall eq_refl)|].
  split; [exact (Hnone eq_refl)|exact Hmodal].
Defined.

(** X22, for a free user who reveals one like, gets a snapshot and opens
    the likes. *)
Lemma reveals_are_never_undone_witness :
  map Like.id
    (likesData (page (run false (Some ProfileFixtures.alice) aliceScreen
                        [RevealLike "2"; Snapshot 17 None; ShowLikes])))
  = ["1"; "2"; "3"]
  /\ revealed initialLikes
     <= revealed
          (likesData (page (run false (Some ProfileFixtures.alice)
                              aliceScreen
                              [RevealLike "2"; Snapshot 17 None;
                               ShowLikes]))).
Proof.
  destruct (reveals_are_never_undone false (Some ProfileFixtures.alice)
              aliceScreen [RevealLike "2"; Snapshot 17 None; ShowLikes])
    as (Hids & _ & Hcount).
  split; [exact Hids|exact Hcount].
Defined.

End ProfileScreenSpec.

(** * Properties of the preview's format label *)

Module PreviewPaneSpec.
Import JS PreviewPane.

Lemma split_slash_nonempty s : split_slash s <> [].
Proof.
  destruct s as [|c rest]; [done|]. cbn [split_slash].
  destruct (Ascii.eqb c slash); [done|]. by destruct (split_slash rest).
Qed.

Lemma split_slash_plain s : has_slash s = false -> split_slash s = [s].
Proof.
  induction s as [|c rest IH]; [done|]. cbn [has_slash split_slash].
  destruct (Ascii.eqb c slash); [done|]. intros Hrest.
  by rewrite (IH Hrest).
Qed.

Lemma split_slash_second s :
  has_slash s = true -> exists part, split_slash s !! 1%nat = Some part.
Proof.
  induction s as [|c rest IH]; [done|]. cbn [has_slash split_slash].
  destruct (Ascii.eqb c slash); cbn [orb].
  - intros _. destruct (split_slash rest) as [|first others] eqn:E.
    + by apply split_slash_nonempty in E.
    + by exists first.
  - intros Hrest. destruct (IH Hrest) as [part Hpart].
    destruct (split_slash rest) as [|first others]; [done|].
    by exists part.
Qed.

Lemma split_slash_app a b :
  has_slash a = false ->
  split_slash (a ++ String slash b) = a :: split_slash b.
Proof.
  induction a as [|c rest IH]; cbn [has_slash].
  - intros _.
    change (split_slash (String slash b) = EmptyString :: split_slash b).
    cbn [split_slash]. by rewrite Ascii.eqb_refl.
  - destruct (Ascii.eqb c slash) eqn:E; [done|]. intros Hrest.
    change (split_slash (String c (rest ++ String slash b))
            = String c rest :: split_slash b).
    cbn [split_slash]. by rewrite E, (IH Hrest).
Qed.

(** X23.  The format label of the preview exists exactly when the selected
    file's type contains a slash; for a type without one (the empty type of
    an unknown file, say) evaluating the label throws and the preview cannot
    be rendered.  For a type of the form [kind/subtype] the label is the
    subtype in upper case. *)
Theorem formatLabel_needs_a_slash (file : File) :
  (formatLabel file = None <-> has_slash (type file) = false)
  /\ (forall kind subtype,
        type file = kind ++ String slash subtype ->
        has_slash kind = false -> has_slash subtype = false ->
        formatLabel file = Some (toUpperCase subtype)).
Proof.
  unfold formatLabel. split; [split|].
  - intros Hnone. destruct (has_slash (type file)) eqn:E; [|done].
    destruct (split_slash_second _ E) as [part Hpart].
    by rewrite Hpart in Hnone.
  - intros Hplain. by rewrite split_slash_plain.
  - intros kind subtype -> Hkind Hsub.
    by rewrite split_slash_app, (split_slash_plain subtype).
Qed.

(** X23, at a JPEG and at a file without a type. *)
Lemma formatLabel_needs_a_slash_witness :
  formatLabel StorageUtils.jpeg2MB = Some "JPEG"
  /\ formatLabel {| name := "README"; size := 12; type := "" |} = None.
Proof.
  split.
  - apply (proj2 (formatLabel_needs_a_slash StorageUtils.jpeg2MB)
             "image" "jpeg"); reflexivity.
  - apply (proj1 (formatLabel_needs_a_slash
                    {| name := "README"; size := 12; type := "" |})).
    reflexivity.
Defined.

End PreviewPaneSpec.
